(** * Athena: the retrieval-augmented answering pipeline

    A shallow embedding of [src/chat_engine.py], [src/qa_engine.py],
    [semantic_search.py] and [pdf_utils.py], and the properties of the
    response cache, the conversation log, the stream reader and the
    extraction fallback that the specification states about them.

    Conventions of the embedding.
    - A Python [str] is a Rocq [string]: the sequence of the bytes of its
      UTF-8 encoding.  The model is exact on ASCII text; [lower], [strip],
      [\s] and slicing act on ASCII letters, ASCII white space and byte
      positions.  The non-ASCII literals of the program (the marks that
      open its messages) are only concatenated and compared.
    - A generator is denoted by the list of the values it yields when it
      is driven to exhaustion, as [chat], [answer] and a [for] loop drive
      it, paired with the state it leaves behind.
    - Library calls whose result the program only inspects
      ([requests.post], [response.iter_lines], [json.loads], the
      retriever, the vector index, the PDF reader) are inputs: the model
      receives what they returned or raised. *)

From Stdlib Require Import ZArith QArith Ascii DecimalString.
From stdpp Require Import gmap strings list.

Set Warnings "-register-all".
Local Open Scope Z_scope.

(** ** Python built-ins *)

Module Py.

(** [str.isspace] per character, on the ASCII range: TAB, LF, VT, FF,
    CR, the separators FS, GS, RS, US, and the space. *)
Definition isspace (c : ascii) : bool :=
  let n := nat_of_ascii c in
  ((9 <=? n) && (n <=? 13) || (28 <=? n) && (n <=? 32))%nat.

(** [a-zA-Z] *)
Definition isalpha (c : ascii) : bool :=
  let n := nat_of_ascii c in
  ((65 <=? n) && (n <=? 90) || (97 <=? n) && (n <=? 122))%nat.

Definition lower_char (c : ascii) : ascii :=
  let n := nat_of_ascii c in
  if ((65 <=? n) && (n <=? 90))%nat then ascii_of_nat (n + 32) else c.

(** [s.lower()] *)
Fixpoint lower (s : string) : string :=
  match s with
  | EmptyString => EmptyString
  | String c r => String (lower_char c) (lower r)
  end.

(** [s.lstrip()] *)
Fixpoint lstrip (s : string) : string :=
  match s with
  | EmptyString => EmptyString
  | String c r => if isspace c then lstrip r else s
  end.

(** [s.rstrip()]: a character is dropped when it and everything after
    it is white space. *)
Fixpoint rstrip (s : string) : string :=
  match s with
  | EmptyString => EmptyString
  | String c r =>
      match rstrip r with
      | EmptyString => if isspace c then EmptyString else String c EmptyString
      | r' => String c r'
      end
  end.

(** [s.strip()] *)
Definition strip (s : string) : string := rstrip (lstrip s).

(** [s[:n]] *)
Fixpoint slice_to (n : nat) (s : string) : string :=
  match n, s with
  | O, _ => EmptyString
  | _, EmptyString => EmptyString
  | S n', String c r => String c (slice_to n' r)
  end.

(** [len(s)] *)
Definition len (s : string) : Z := Z.of_nat (String.length s).

(** [sep.join(parts)] for a list of [str] *)
Fixpoint join (sep : string) (parts : list string) : string :=
  match parts with
  | [] => ""
  | [p] => p
  | p :: ps => p +:+ sep +:+ join sep ps
  end.

(** [x in s] for two strings *)
Fixpoint startswith (p s : string) : bool :=
  match p, s with
  | EmptyString, _ => true
  | String a p', String b s' => if Ascii.eqb a b then startswith p' s' else false
  | String _ _, EmptyString => false
  end.

Fixpoint contains (x s : string) : bool :=
  startswith x s ||
  match s with
  | EmptyString => false
  | String _ s' => contains x s'
  end.

(** [s * n] *)
Fixpoint str_mul (s : string) (n : nat) : string :=
  match n with
  | O => ""
  | S n' => s +:+ str_mul s n'
  end.

(** [str(n)] for a natural number *)
Definition str_of_nat (n : nat) : string :=
  NilEmpty.string_of_uint (Nat.to_uint n).

(** [str(z)] for an integer *)
Definition str_of_Z (z : Z) : string :=
  if z <? 0 then "-" +:+ str_of_nat (Z.to_nat (- z)) else str_of_nat (Z.to_nat z).

(** *** Values decoded from JSON

    What [json.loads] can return: [None], a [bool], an [int], a
    [float], a [str], a [list] or a [dict].  Of a [float] the program
    observes only whether it is zero.  A [dict] lists its items in the
    order of the text; a key that is repeated keeps its last value. *)
Inductive value : Type :=
| VNone
| VBool (b : bool)
| VInt (n : Z)
| VFloat (nonzero : bool)
| VStr (s : string)
| VList (items : list value)
| VDict (items : list (string * value)).

(** [bool(v)] *)
Definition truthy (v : value) : bool :=
  match v with
  | VNone => false
  | VBool b => b
  | VInt n => negb (n =? 0)
  | VFloat nz => nz
  | VStr s => negb (String.eqb s "")
  | VList l => match l with [] => false | _ => true end
  | VDict d => match d with [] => false | _ => true end
  end.

(** [type(v).__name__] *)
Definition type_name (v : value) : string :=
  match v with
  | VNone => "NoneType"
  | VBool _ => "bool"
  | VInt _ => "int"
  | VFloat _ => "float"
  | VStr _ => "str"
  | VList _ => "list"
  | VDict _ => "dict"
  end.

(** [d.get(key, default)] on the items of a dict *)
Fixpoint dict_get (d : list (string * value)) (key : string) (default : value) : value :=
  match d with
  | [] => default
  | (k, v) :: rest =>
      if String.eqb k key then dict_get rest key v else dict_get rest key default
  end.

(** *** Exceptions

    The classes the program's handlers tell apart, with [str(e)].
    [ConnectTimeout] derives from both [ConnectionError] and [Timeout]
    in [requests]; [ReadTimeout] derives from [Timeout] only. *)
Inductive exn_class : Type :=
| ConnectionError
| ConnectTimeout
| ReadTimeout
| JSONDecodeError
| UnicodeDecodeError
| AttributeError
| TypeError
| OtherException.

Record exn : Type := Raise { exn_cls : exn_class; exn_str : string }.

Definition is_ConnectionError (e : exn) : bool :=
  match exn_cls e with ConnectionError | ConnectTimeout => true | _ => false end.

Definition is_Timeout (e : exn) : bool :=
  match exn_cls e with ConnectTimeout | ReadTimeout => true | _ => false end.

Definition is_JSONDecodeError (e : exn) : bool :=
  match exn_cls e with JSONDecodeError => true | _ => false end.

Definition is_AttributeError (e : exn) : bool :=
  match exn_cls e with AttributeError => true | _ => false end.

(** The outcome of a call that returns or raises. *)
Inductive result (A : Type) : Type :=
| Return (a : A)
| Raises (e : exn).
Arguments Return {A} a.
Arguments Raises {A} e.

(** [v.get] on a value that is not a dict *)
Definition no_attribute_get (v : value) : exn :=
  Raise AttributeError ("'" +:+ type_name v +:+ "' object has no attribute 'get'").

(** ["".join(parts)] for a list of values: the first item that is not a
    [str] raises [TypeError], naming its position and type. *)
Fixpoint join_values_from (i : nat) (parts : list value) : result string :=
  match parts with
  | [] => Return ""
  | VStr s :: rest =>
      match join_values_from (S i) rest with
      | Return t => Return (s +:+ t)
      | Raises e => Raises e
      end
  | v :: _ =>
      Raises (Raise TypeError
                ("sequence item " +:+ str_of_nat i +:+ ": expected str instance, "
                   +:+ type_name v +:+ " found"))
  end.

Definition join_values (parts : list value) : result string :=
  join_values_from 0 parts.

End Py.

(** ** [hashlib.md5] (RFC 1321) *)

Module Hashlib.

Definition mask32 (x : Z) : Z := Z.land x 0xffffffff.

Definition rotl32 (x : Z) (s : Z) : Z :=
  mask32 (Z.lor (Z.shiftl x s) (Z.shiftr x (32 - s))).

Definition not32 (x : Z) : Z := Z.lxor x 0xffffffff.

Definition K : list Z :=
  [ 0xd76aa478; 0xe8c7b756; 0x242070db; 0xc1bdceee;
    0xf57c0faf; 0x4787c62a; 0xa8304613; 0xfd469501;
    0x698098d8; 0x8b44f7af; 0xffff5bb1; 0x895cd7be;
    0x6b901122; 0xfd987193; 0xa679438e; 0x49b40821;
    0xf61e2562; 0xc040b340; 0x265e5a51; 0xe9b6c7aa;
    0xd62f105d; 0x02441453; 0xd8a1e681; 0xe7d3fbc8;
    0x21e1cde6; 0xc33707d6; 0xf4d50d87; 0x455a14ed;
    0xa9e3e905; 0xfcefa3f8; 0x676f02d9; 0x8d2a4c8a;
    0xfffa3942; 0x8771f681; 0x6d9d6122; 0xfde5380c;
    0xa4beea44; 0x4bdecfa9; 0xf6bb4b60; 0xbebfbc70;
    0x289b7ec6; 0xeaa127fa; 0xd4ef3085; 0x04881d05;
    0xd9d4d039; 0xe6db99e5; 0x1fa27cf8; 0xc4ac5665;
    0xf4292244; 0x432aff97; 0xab9423a7; 0xfc93a039;
    0x655b59c3; 0x8f0ccc92; 0xffeff47d; 0x85845dd1;
    0x6fa87e4f; 0xfe2ce6e0; 0xa3014314; 0x4e0811a1;
    0xf7537e82; 0xbd3af235; 0x2ad7d2bb; 0xeb86d391 ].

Definition shifts : list Z :=
  [ 7; 12; 17; 22; 7; 12; 17; 22; 7; 12; 17; 22; 7; 12; 17; 22;
    5; 9; 14; 20; 5; 9; 14; 20; 5; 9; 14; 20; 5; 9; 14; 20;
    4; 11; 16; 23; 4; 11; 16; 23; 4; 11; 16; 23; 4; 11; 16; 23;
    6; 10; 15; 21; 6; 10; 15; 21; 6; 10; 15; 21; 6; 10; 15; 21 ].

Definition nthZ (l : list Z) (i : nat) : Z := nth i l 0.

(** The bytes of a message, then the padding: one byte 0x80, zero bytes
    up to 56 modulo 64, and the bit length on 8 bytes, low byte first. *)
Definition bytes_of (s : string) : list Z :=
  map (fun c => Z.of_nat (nat_of_ascii c)) (String.list_ascii_of_string s).

Definition le_bytes (width : nat) (x : Z) : list Z :=
  map (fun i => Z.land (Z.shiftr x (8 * Z.of_nat i)) 0xff) (seq 0 width).

Definition pad (msg : list Z) : list Z :=
  let n := Z.of_nat (length msg) in
  let zeros := Z.to_nat ((55 - n) mod 64) in
  msg ++ [0x80] ++ repeat 0 zeros ++ le_bytes 8 (8 * n).

(** A little-endian 32-bit word from four bytes. *)
Definition word_of (b0 b1 b2 b3 : Z) : Z :=
  Z.lor b0 (Z.lor (Z.shiftl b1 8) (Z.lor (Z.shiftl b2 16) (Z.shiftl b3 24))).

Fixpoint words_of (bs : list Z) : list Z :=
  match bs with
  | b0 :: b1 :: b2 :: b3 :: rest => word_of b0 b1 b2 b3 :: words_of rest
  | _ => []
  end.

Definition state : Type := Z * Z * Z * Z.

(** One of the 64 operations of a block. *)
Definition round (M : list Z) (st : state) (i : nat) : state :=
  let '(A, B, C, D) := st in
  let '(F, g) :=
    if (i <? 16)%nat then (Z.lor (Z.land B C) (Z.land (not32 B) D), i)
    else if (i <? 32)%nat then (Z.lor (Z.land D B) (Z.land (not32 D) C), (5 * i + 1) mod 16)%nat
    else if (i <? 48)%nat then (Z.lxor B (Z.lxor C D), (3 * i + 5) mod 16)%nat
    else (Z.lxor C (Z.lor B (not32 D)), (7 * i) mod 16)%nat in
  let F' := mask32 (F + A + nthZ K i + nthZ M g) in
  (D, mask32 (B + rotl32 F' (nthZ shifts i)), B, C).

Definition block (st : state) (M : list Z) : state :=
  let '(a0, b0, c0, d0) := st in
  let '(A, B, C, D) := fold_left (round M) (seq 0 64) st in
  (mask32 (a0 + A), mask32 (b0 + B), mask32 (c0 + C), mask32 (d0 + D)).

(** The words of a padded message, 16 to a block; [fuel] bounds the
    number of blocks. *)
Fixpoint blocks (fuel : nat) (st : state) (ws : list Z) : state :=
  match fuel, ws with
  | S fuel', _ :: _ => blocks fuel' (block st (firstn 16 ws)) (skipn 16 ws)
  | _, _ => st
  end.

Definition hex_digit (n : Z) : ascii :=
  ascii_of_nat (Z.to_nat (if n <? 10 then 48 + n else 87 + n)).

Definition hex_byte (b : Z) : string :=
  String (hex_digit (Z.shiftr b 4)) (String (hex_digit (Z.land b 0xf)) EmptyString).

Definition digest (msg : list Z) : list Z :=
  let ws := words_of (pad msg) in
  let '(a, b, c, d) :=
    blocks (length ws) (0x67452301, 0xefcdab89, 0x98badcfe, 0x10325476) ws in
  le_bytes 4 a ++ le_bytes 4 b ++ le_bytes 4 c ++ le_bytes 4 d.

(** [hashlib.md5(s.encode()).hexdigest()] *)
Definition md5_hexdigest (s : string) : string :=
  Py.join "" (map hex_byte (digest (bytes_of s))).

End Hashlib.

(** ** [requests] and the wire *)

Module Requests.
Import Py.

(** One step of [response.iter_lines()]: an empty line, a non-empty
    line together with what [json.loads] makes of it, or the iterator
    raising instead of yielding (the connection broke or timed out
    while reading). *)
Inductive line : Type :=
| Blank
| Data (loads : result value)
| Broken (e : exn).

Record response : Type := Response {
  status_code : Z;
  text : string;
  iter_lines : list line
}.

(** The body posted to the generation endpoint. *)
Record payload : Type := Payload {
  p_model : string;
  p_prompt : string;
  p_stream : bool;
  p_temperature : Q;
  p_num_predict : Z;
  p_num_ctx : Z;
  p_keep_alive : string
}.

(** [requests.post(url, json=payload, timeout=timeout, stream=stream)] *)
Record request : Type := Post {
  url : string;
  json : payload;
  timeout : Z;
  stream : bool
}.

(** The backend as the program meets it: every request is answered by
    a response or by an exception. *)
Definition backend : Type := request -> result response.

End Requests.

(** Literals shared by the messages of the program. *)

Definition nl : string := String "010" EmptyString.
Definition cross_mark : string :=
  String "226" (String "157" (String "140" EmptyString)).
Definition warning_sign : string :=
  String "226" (String "154" (String "160"
    (String "239" (String "184" (String "143" EmptyString))))).

(** ** [src/chat_engine.py] *)

Module ChatEngine.
Import Py Requests.

(** An entry of [chat_history]; the timestamp is the reading of the
    clock, [datetime.now()], at the moment of recording. *)
Record exchange : Type := Exchange {
  timestamp : Z;
  user : string;
  assistant : string
}.

Record AthenaChat : Type := Build {
  model : string;
  temperature : Q;
  chat_history : list exchange;
  ollama_url : string;
  pdf_context : option string;
  _response_cache : gmap string string
}.

(** [AthenaChat(model, temperature)] *)
Definition __init__ (model : string) (temperature : Q) : AthenaChat :=
  {| model := model;
     temperature := temperature;
     chat_history := [];
     ollama_url := "http://localhost:11434/api/generate";
     pdf_context := None;
     _response_cache := ∅ |}.

(** [AthenaChat()] *)
Definition default : AthenaChat := __init__ "llama3.2:1b" (3 # 10).

Definition set_pdf_context (self : AthenaChat) (pdf_text : string) : AthenaChat :=
  {| model := model self;
     temperature := temperature self;
     chat_history := chat_history self;
     ollama_url := ollama_url self;
     pdf_context := Some pdf_text;
     _response_cache := ∅ |}.

(** [self.pdf_context or ""] *)
Definition pdf_context_or_empty (self : AthenaChat) : string :=
  match pdf_context self with
  | Some s => s
  | None => ""
  end.

(** The local [context_hash] of [_get_cache_key]: the digest of the
    first 1000 characters of the context, cut to 8 digits. *)
Definition context_hash (self : AthenaChat) : string :=
  slice_to 8 (Hashlib.md5_hexdigest (slice_to 1000 (pdf_context_or_empty self))).

Definition _get_cache_key (self : AthenaChat) (user_message : string) : string :=
  let msg_hash := Hashlib.md5_hexdigest (strip (lower user_message)) in
  context_hash self +:+ "_" +:+ msg_hash.

(** [self.chat_history[-3:]] *)
Definition recent (history : list exchange) : list exchange :=
  skipn (length history - 3) history.

Definition _build_context (self : AthenaChat) : string :=
  match chat_history self with
  | [] => "This is the start of the conversation."
  | _ =>
      join nl
        ("Previous conversation:" ::
         flat_map (fun ex => ["User: " +:+ user ex; "Athena: " +:+ assistant ex])
                  (recent (chat_history self)))
  end.

Definition build_prompt (self : AthenaChat) (user_message : string) : string :=
  let context := _build_context self in
  if truthy (VStr (pdf_context_or_empty self)) then
    "You are Athena, an AI research assistant." +:+ nl +:+ nl
    +:+ "DOCUMENT:" +:+ nl
    +:+ slice_to 1500 (pdf_context_or_empty self) +:+ nl +:+ nl
    +:+ context +:+ nl +:+ nl
    +:+ "User: " +:+ user_message +:+ nl
    +:+ "Athena:"
  else
    "You are Athena, an AI research assistant. You're knowledgeable, helpful, and professional."
    +:+ nl +:+ nl
    +:+ context +:+ nl +:+ nl
    +:+ "User: " +:+ user_message +:+ nl
    +:+ "Athena:".

Definition build_request (self : AthenaChat) (user_message : string) : request :=
  {| url := ollama_url self;
     json := {| p_model := model self;
                p_prompt := build_prompt self user_message;
                p_stream := true;
                p_temperature := temperature self;
                p_num_predict := 250;
                p_num_ctx := 2048;
                p_keep_alive := "10m" |};
     timeout := 60;
     stream := true |}.

(** The [for line in response.iter_lines()] loop.  It returns the
    tokens appended to [full_response], each of which was yielded as
    it was appended, and the exception that ended the loop, if one
    did.  Only [json.JSONDecodeError] is caught inside the loop. *)
Fixpoint read_stream (lines : list line) : list value * option exn :=
  match lines with
  | [] => ([], None)
  | Blank :: rest => read_stream rest
  | Broken e :: _ => ([], Some e)
  | Data (Raises e) :: rest =>
      if is_JSONDecodeError e then read_stream rest else ([], Some e)
  | Data (Return data) :: rest =>
      match data with
      | VDict d =>
          let token := dict_get d "response" (VStr "") in
          let yielded := if truthy token then [token] else [] in
          if truthy (dict_get d "done" (VBool false)) then (yielded, None)
          else
            let '(more, exc) := read_stream rest in
            (yielded ++ more, exc)
      | _ => ([], Some (no_attribute_get data))
      end
  end.

(** The record appended to the history and the entry stored in the
    cache once the loop is over. *)
Definition record_turn (self : AthenaChat) (now : Z) (cache_key user_message
    assistant_message : string) : AthenaChat :=
  {| model := model self;
     temperature := temperature self;
     chat_history :=
       chat_history self ++
         [{| timestamp := now; user := user_message; assistant := assistant_message |}];
     ollama_url := ollama_url self;
     pdf_context := pdf_context self;
     _response_cache := <[cache_key := assistant_message]> (_response_cache self) |}.

(** The body of the [try] of [chat_stream]: what it yields, the state
    it leaves, and the exception that leaves it, if one does. *)
Definition chat_stream_try (self : AthenaChat) (post : backend) (now : Z)
    (cache_key user_message : string) : list value * AthenaChat * option exn :=
  match post (build_request self user_message) with
  | Raises e => ([], self, Some e)
  | Return response =>
      if negb (status_code response =? 200) then
        ([VStr (cross_mark +:+ " Error: " +:+ str_of_Z (status_code response))], self, None)
      else
        let '(full_response, exc) := read_stream (iter_lines response) in
        match exc with
        | Some e => (full_response, self, Some e)
        | None =>
            match join_values full_response with
            | Raises e => (full_response, self, Some e)
            | Return joined =>
                let assistant_message := strip joined in
                if truthy (VStr assistant_message) then
                  (full_response,
                   record_turn self now cache_key user_message assistant_message,
                   None)
                else (full_response, self, None)
            end
        end
  end.

(** The [except] clauses of [chat_stream], in their order. *)
Definition chat_stream_except (e : exn) : string :=
  if is_ConnectionError e then
    cross_mark +:+ " Could not connect to Ollama. Make sure it's running: `ollama serve`"
  else if is_Timeout e then
    cross_mark +:+ " Request timed out. The model is taking too long to respond."
  else cross_mark +:+ " Error: " +:+ exn_str e.

Definition chat_stream (self : AthenaChat) (post : backend) (now : Z)
    (user_message : string) : list value * AthenaChat :=
  let cache_key := _get_cache_key self user_message in
  match _response_cache self !! cache_key with
  | Some cached => ([VStr cached], self)
  | None =>
      let '(yielded, self', exc) :=
        chat_stream_try self post now cache_key user_message in
      match exc with
      | Some e => (yielded ++ [VStr (chat_stream_except e)], self')
      | None => (yielded, self')
      end
  end.

(** [chat]: the cached answer, or the chunks of [chat_stream] joined;
    the join raises when a chunk is not a [str]. *)
Definition chat (self : AthenaChat) (post : backend) (now : Z)
    (user_message : string) : result string * AthenaChat :=
  let cache_key := _get_cache_key self user_message in
  match _response_cache self !! cache_key with
  | Some cached => (Return cached, self)
  | None =>
      let '(response_parts, self') := chat_stream self post now user_message in
      (join_values response_parts, self')
  end.

Definition clear_history (self : AthenaChat) : AthenaChat :=
  {| model := model self;
     temperature := temperature self;
     chat_history := [];
     ollama_url := ollama_url self;
     pdf_context := pdf_context self;
     _response_cache := ∅ |}.

Definition clear_pdf_context (self : AthenaChat) : AthenaChat :=
  {| model := model self;
     temperature := temperature self;
     chat_history := chat_history self;
     ollama_url := ollama_url self;
     pdf_context := None;
     _response_cache := ∅ |}.

Definition get_history (self : AthenaChat) : list exchange := chat_history self.

(** [export_history]: the file name it returns and the text it writes,
    one [f.write] after the other.  [str_datetime] is [str] on a
    [datetime], the rendering of a timestamp. *)
Definition export_block (str_datetime : Z -> string) (i : nat) (ex : exchange) : string :=
  "Exchange " +:+ str_of_nat i +:+ nl
  +:+ "Time: " +:+ str_datetime (timestamp ex) +:+ nl
  +:+ "User: " +:+ user ex +:+ nl
  +:+ "Athena: " +:+ assistant ex +:+ nl
  +:+ str_mul "-" 50 +:+ nl +:+ nl.

(** [for i, exchange in enumerate(self.chat_history, i)] *)
Fixpoint export_blocks (str_datetime : Z -> string) (i : nat) (history : list exchange)
    : string :=
  match history with
  | [] => ""
  | ex :: rest => export_block str_datetime i ex +:+ export_blocks str_datetime (S i) rest
  end.

Definition export_header : string :=
  "Athena Chat History" +:+ nl +:+ str_mul "=" 50 +:+ nl +:+ nl.

Definition export_history (str_datetime : Z -> string) (self : AthenaChat)
    (filename : string) : string * string :=
  (filename, export_header +:+ export_blocks str_datetime 1 (chat_history self)).

End ChatEngine.

(** ** [src/qa_engine.py] *)

Module QaEngine.
Import Py Requests.

Definition OLLAMA_URL : string := "http://localhost:11434/api/generate".

Record document : Type := Document { page_content : string }.

(** The retriever built over the index by [make_qa_chain]: what each
    of its two entry points returns or raises for a question. *)
Record retriever : Type := Retriever {
  invoke : string -> result (list document);
  get_relevant_documents : string -> result (list document)
}.

(** [retriever.invoke(question)], falling back to the older entry
    point on [AttributeError]. *)
Definition retrieve (r : retriever) (question : string) : result (list document) :=
  match invoke r question with
  | Raises e =>
      if is_AttributeError e then get_relevant_documents r question else Raises e
  | Return docs => Return docs
  end.

Definition refusal_sentence : string :=
  "I don't have enough information from this document to answer that question.".

Definition build_prompt (context question : string) : string :=
  "You are Athena, an intelligent AI research assistant." +:+ nl
  +:+ "Answer the question based strictly on the provided context below." +:+ nl
  +:+ "If the context doesn't contain enough information, say: "
  +:+ String "034" EmptyString +:+ refusal_sentence +:+ String "034" EmptyString +:+ nl
  +:+ nl
  +:+ "Context:" +:+ nl
  +:+ context +:+ nl
  +:+ nl
  +:+ "Question: " +:+ question +:+ nl
  +:+ nl
  +:+ "Answer:".

Definition build_request (model prompt : string) : request :=
  {| url := OLLAMA_URL;
     json := {| p_model := model;
                p_prompt := prompt;
                p_stream := true;
                p_temperature := 3 # 10;
                p_num_predict := 250;
                p_num_ctx := 2048;
                p_keep_alive := "10m" |};
     timeout := 60;
     stream := true |}.

(** The [for line in response.iter_lines()] loop: the tokens yielded
    and the exception that ended the loop, if one did.  The bare
    [except] inside the loop catches whatever decoding or field access
    raises; the iterator itself raises outside of it. *)
Fixpoint read_stream (lines : list line) : list value * option exn :=
  match lines with
  | [] => ([], None)
  | Blank :: rest => read_stream rest
  | Broken e :: _ => ([], Some e)
  | Data (Raises _) :: rest => read_stream rest
  | Data (Return data) :: rest =>
      match data with
      | VDict d =>
          let token := dict_get d "response" (VStr "") in
          let yielded := if truthy token then [token] else [] in
          if truthy (dict_get d "done" (VBool false)) then (yielded, None)
          else
            let '(more, exc) := read_stream rest in
            (yielded ++ more, exc)
      | _ => read_stream rest
      end
  end.

(** The body of the [try] of [answer_stream]. *)
Definition answer_stream_try (r : retriever) (model : string) (post : backend)
    (question : string) : list value * option exn :=
  match retrieve r question with
  | Raises e => ([], Some e)
  | Return [] =>
      ([VStr (warning_sign +:+ " No relevant context found in the document.")], None)
  | Return docs =>
      let context := join (nl +:+ nl +:+ "---" +:+ nl +:+ nl) (map page_content docs) in
      let prompt := build_prompt context question in
      match post (build_request model prompt) with
      | Raises e => ([], Some e)
      | Return response =>
          if negb (status_code response =? 200) then
            ([VStr (cross_mark +:+ " Ollama API error "
                      +:+ str_of_Z (status_code response) +:+ ": " +:+ text response)],
             None)
          else read_stream (iter_lines response)
      end
  end.

(** The [except] clauses of [answer_stream], in their order. *)
Definition answer_stream_except (e : exn) : string :=
  if is_Timeout e then
    cross_mark +:+ " Request timed out. The model might be processing a large context."
  else if is_ConnectionError e then
    cross_mark
    +:+ " Could not connect to Ollama. Make sure it's running on http://localhost:11434"
  else cross_mark +:+ " Error during Q&A: " +:+ exn_str e.

Definition answer_stream (r : retriever) (model : string) (post : backend)
    (question : string) : list value :=
  let '(yielded, exc) := answer_stream_try r model post question in
  match exc with
  | Some e => yielded ++ [VStr (answer_stream_except e)]
  | None => yielded
  end.

(** [answer]: the chunks joined and stripped. *)
Definition answer (r : retriever) (model : string) (post : backend)
    (question : string) : result string :=
  match join_values (answer_stream r model post question) with
  | Return s => Return (strip s)
  | Raises e => Raises e
  end.

End QaEngine.

(** ** [semantic_search.py] *)

Module SemanticSearch.
Import Py.

(** The index: what [similarity_search_with_score(query, k=k)] returns
    (documents with their distance) or raises. *)
Record vectordb : Type := VectorDb {
  similarity_search_with_score : string -> Z -> result (list (QaEngine.document * Q))
}.


End SemanticSearch.

(** ** Building the index: [build_semantic_index] and [make_qa_chain] *)

Module Indexing.
Import Py.

(** What the two functions use of LangChain, as they meet it: the
    embedding model loaded by name, the text splitter (chunk size,
    overlap, separators when they are given, and the text to split),
    the index built from chunks, and the retriever an index gives for a
    number of results.  Each returns or raises. *)
Record langchain (embedding index : Type) : Type := LangChain {
  SentenceTransformerEmbeddings : string -> result embedding;
  split_text : Z -> Z -> option (list string) -> string -> result (list string);
  FAISS_from_texts : list string -> embedding -> result index;
  as_retriever : index -> Z -> QaEngine.retriever
}.
Arguments SentenceTransformerEmbeddings {embedding index} l.
Arguments split_text {embedding index} l.
Arguments FAISS_from_texts {embedding index} l.
Arguments as_retriever {embedding index} l.

Definition no_chunks : exn := Raise OtherException "No text chunks created from PDF".

(** [build_semantic_index]: the chunk lists it handed to
    [FAISS.from_texts], and the index or the exception, which the
    handler logs and raises again. *)
Definition build_semantic_index {embedding index : Type} (lib : langchain embedding index)
    (pdf_text : string) (chunk_size chunk_overlap : Z)
    : list (list string) * result index :=
  match SentenceTransformerEmbeddings lib "all-MiniLM-L6-v2" with
  | Raises e => ([], Raises e)
  | Return embed_model =>
      match split_text lib chunk_size chunk_overlap
              (Some [nl +:+ nl; nl; ". "; " "; ""]) pdf_text with
      | Raises e => ([], Raises e)
      | Return texts =>
          match texts with
          | [] => ([], Raises no_chunks)
          | _ => ([texts], FAISS_from_texts lib texts embed_model)
          end
      end
  end.

(** [make_qa_chain]: the chunk lists handed to [FAISS.from_texts], and
    the function it returns, given here by its retriever and its model,
    or the exception.  The overlap is 200 whatever the chunk size. *)
Definition make_qa_chain {embedding index : Type} (lib : langchain embedding index)
    (pdf_text : string) (chunk_size k : Z) (model : string)
    : list (list string) * result (QaEngine.retriever * string) :=
  match SentenceTransformerEmbeddings lib "all-MiniLM-L6-v2" with
  | Raises e => ([], Raises e)
  | Return embed =>
      match split_text lib chunk_size 200 None pdf_text with
      | Raises e => ([], Raises e)
      | Return texts =>
          match texts with
          | [] => ([], Raises no_chunks)
          | _ =>
              match FAISS_from_texts lib texts embed with
              | Raises e => ([texts], Raises e)
              | Return vectordb => ([texts], Return (as_retriever lib vectordb k, model))
              end
          end
      end
  end.

End Indexing.

(** ** [pdf_utils.py] *)

Module PdfUtils.
Import Py.

(** *** [re.sub(r'(?<=\S)\s+(?=\S\s)', '', text)]

    A match is a whole run of white space: the look-behind wants a
    character that is not white space just before it, so it starts a
    run, and the look-ahead wants such a character just after it, so
    it ends the run; that character must itself be followed by white
    space.  The scanner keeps whether it is before any word, after a
    word, or inside a run that is being removed. *)
Inductive scan : Type := Keeping | AfterWord | Dropping.

(** The run starting here is followed by one character that is not
    white space and then by white space. *)
Fixpoint run_then_single (s : string) : bool :=
  match s with
  | EmptyString => false
  | String c r =>
      if isspace c then run_then_single r
      else match r with
           | String d _ => isspace d
           | EmptyString => false
           end
  end.

Fixpoint sub_spaced (mode : scan) (s : string) : string :=
  match s with
  | EmptyString => EmptyString
  | String c r =>
      if isspace c then
        match mode with
        | AfterWord =>
            if run_then_single s then sub_spaced Dropping r
            else String c (sub_spaced Keeping r)
        | Dropping => sub_spaced Dropping r
        | Keeping => String c (sub_spaced Keeping r)
        end
      else String c (sub_spaced AfterWord r)
  end.

(** *** [re.sub(r'\s{2,}', ' ', text)]: every run of two or more
    white-space characters becomes one space. *)
Fixpoint sub_runs (in_run : bool) (s : string) : string :=
  match s with
  | EmptyString => EmptyString
  | String c r =>
      if isspace c then
        if in_run then sub_runs true r
        else
          match r with
          | String d _ =>
              if isspace d then String " " (sub_runs true r)
              else String c (sub_runs false r)
          | EmptyString => String c EmptyString
          end
      else String c (sub_runs false r)
  end.

(** *** [re.sub(r'([a-zA-Z])\s+([a-zA-Z])\s+([a-zA-Z])', r'\1\2\3', text)] *)

(** [\s+([a-zA-Z])] at the head of [s]: the letter, the number of
    characters matched and what follows. *)
Fixpoint spaces_letter (seen : nat) (s : string) : option (ascii * nat * string) :=
  match s with
  | EmptyString => None
  | String c r =>
      if isspace c then spaces_letter (S seen) r
      else
        match seen with
        | O => None
        | S _ => if isalpha c then Some (c, S seen, r) else None
        end
  end.

(** The whole pattern at the head of [s]: the three letters and the
    number of characters matched. *)
Definition three_letters (s : string) : option (ascii * ascii * ascii * nat) :=
  match s with
  | EmptyString => None
  | String a r =>
      if isalpha a then
        match spaces_letter 0 r with
        | Some (b, n1, r1) =>
            match spaces_letter 0 r1 with
            | Some (c, n2, _) => Some (a, b, c, (1 + n1 + n2)%nat)
            | None => None
            end
        | None => None
        end
      else None
  end.

(** Matches are taken leftmost and do not overlap: after a match the
    scanner skips the characters it covered. *)
Fixpoint sub_letters (skip : nat) (s : string) : string :=
  match s with
  | EmptyString => EmptyString
  | String c r =>
      match skip with
      | S k => sub_letters k r
      | O =>
          match three_letters s with
          | Some (a, b, c', n) =>
              String a (String b (String c' (sub_letters (n - 1) r)))
          | None => String c (sub_letters 0 r)
          end
      end
  end.

Definition clean_extracted_text (text : string) : string :=
  let cleaned := sub_spaced Keeping text in
  let cleaned := sub_runs false cleaned in
  let cleaned := sub_letters 0 cleaned in
  strip cleaned.

(** A PDF as the reader presents it: for each page in order, what
    [page.extract_text()] returns or raises.  A file that cannot be
    opened or parsed raises before any page. *)
Definition pdf_file : Type := list (result string).

(** The loop [for page in pdf_reader.pages], accumulating in [text];
    it stops when something raises. *)
Fixpoint read_pages (pages : pdf_file) (text : string) : string * option exn :=
  match pages with
  | [] => (text, None)
  | Raises e :: _ => (text, Some e)
  | Return page_text :: rest =>
      read_pages rest
        (if truthy (VStr page_text) then text +:+ page_text +:+ nl else text)
  end.

Definition extract_text_from_pdf (pdf : pdf_file) : result string :=
  match read_pages pdf "" with
  | (_, Some e) => Raises e
  | (text, None) => Return (clean_extracted_text text)
  end.

(** [a > b] on rationals *)
Definition Qgtb (a b : Q) : bool := negb (Qle_bool a b).

(** [extracted_text] is the variable [text] once the reading is over;
    [extract_text_from_pdf_advanced]: a failure of the reader is
    logged and the text read so far is kept.  The comparison
    [len(cleaned_text) > len(text) * 0.5] is the one of the source,
    over the rationals; the product is exact in binary floating point
    for every length below 2^53. *)
Definition extracted_text (pdf : pdf_file) : string := fst (read_pages pdf "").

Definition extract_text_from_pdf_advanced (pdf : pdf_file) : string :=
  let text := extracted_text pdf in
  if truthy (VStr text) then
    let cleaned_text := clean_extracted_text text in
    if Qgtb (inject_Z (len cleaned_text)) (inject_Z (len text) * (5 # 10)) then
      cleaned_text
    else text
  else text.

End PdfUtils.

(** ** Test doubles and sample data *)

Module Scenario.
Import Py Requests.

(** [{"response": token, "done": done}] as a line of the stream *)
Definition record (token : string) (done : bool) : line :=
  Data (Return (VDict [("response", VStr token); ("done", VBool done)])).

(** A backend that answers every request with the same response. *)
Definition always (r : response) : backend := fun _ => Return r.

(** A backend that cannot be reached. *)
Definition unreachable : backend :=
  fun _ => Raises (Raise ConnectionError "Connection refused").

(** A backend that answers with [r] when the prompt it is sent
    contains every string of [needles], and with status 400 when it
    does not. *)
Definition expecting (needles : list string) (r : response) : backend :=
  fun req =>
    if forallb (fun needle => contains needle (p_prompt (json req))) needles
    then Return r
    else Return (Response 400 "unexpected prompt" []).

Definition question : string := "What is the capital of France?".

Definition chunks : list QaEngine.document :=
  [ QaEngine.Document "The capital of France is Paris.";
    QaEngine.Document "Paris has a population of about 2 million." ].

Definition retriever : QaEngine.retriever :=
  {| QaEngine.invoke := fun _ => Return chunks;
     QaEngine.get_relevant_documents := fun _ => Return chunks |}.

(** The context assembled from the retrieved chunks. *)
Definition context : string :=
  join (nl +:+ nl +:+ "---" +:+ nl +:+ nl) (map QaEngine.page_content chunks).

Definition tokens : list value :=
  [VStr "Paris"; VStr " is"; VStr " the"; VStr " capital"; VStr "."].

(** Five token records; the terminal marker rides on the last one. *)
Definition paris : response :=
  Response 200 ""
    [ record "Paris" false; record " is" false; record " the" false;
      record " capital" false; record "." true ].


(** A stream with a line whose bytes are not valid UTF-8 between two
    well-formed records: [json.loads] raises [UnicodeDecodeError]. *)
Definition undecodable : exn :=
  Raise UnicodeDecodeError
    "'utf-8' codec can't decode byte 0xff in position 0: invalid start byte".

Definition garbled : response :=
  Response 200 ""
    [ record "Hi" false; Data (Raises undecodable); record " there" true ].

(** A stream with a blank line and a line that is not JSON between two
    well-formed records: [json.loads] raises [JSONDecodeError]. *)
Definition malformed : response :=
  Response 200 ""
    [ record "Hi" false; Blank;
      Data (Raises (Raise JSONDecodeError
                      "Expecting property name enclosed in double quotes"));
      record " there" true ].

(** A stream that breaks after two tokens: the read times out. *)
Definition stalled : response :=
  Response 200 ""
    [ record "Paris" false; record " is" false;
      Broken (Raise ReadTimeout "Read timed out.") ].

(** A stream that ends at once, and one whose only token is blank. *)
Definition silent : response := Response 200 "" [ Blank; record "" true ].
Definition blank : response := Response 200 "" [ record " " false; record "" true ].

(** A backend that does not answer in time. *)
Definition timing_out : backend :=
  fun _ => Raises (Raise ReadTimeout "Read timed out. (read timeout=60)").

(** A stream with the JSON text [null] between two well-formed records. *)
Definition with_null : response :=
  Response 200 "" [ record "Hi" false; Data (Return VNone); record " there" true ].

(** A response with a status other than 200 and a body that explains it. *)
Definition not_found : response :=
  Response 404 "model 'llama3.2:1b' not found, try pulling it first" [].

(** Three documents as the reader presents them: plain text on two
    pages, text spaced letter by letter, and a page of white space
    followed by a page that cannot be read. *)
Definition plain_pdf : PdfUtils.pdf_file :=
  [Return "The capital of  France"; Return ""; Return "is Paris."].
Definition spaced_pdf : PdfUtils.pdf_file :=
  [Return "M a y  2 0 2 5"; Return ""; Return "P y t h o n"].
Definition blank_pdf : PdfUtils.pdf_file :=
  [Return "    "; Raises (Raise OtherException "damaged page")].



(** A stream whose second token is a number, not a string. *)
Definition numeric : response :=
  Response 200 ""
    [ Data (Return (VDict [("response", VStr "Paris")]));
      Data (Return (VDict [("response", VInt 5); ("done", VBool true)])) ].


(** A retriever of an older LangChain: it has no [invoke]. *)
Definition legacy_retriever : QaEngine.retriever :=
  {| QaEngine.invoke :=
       fun _ => Raises (Raise AttributeError "'Retriever' object has no attribute 'invoke'");
     QaEngine.get_relevant_documents := fun _ => Return chunks |}.


(** A LangChain whose splitter finds no chunk, and one whose splitter
    cuts the text in two. *)
Definition splitting (chunks : list string) : Indexing.langchain unit (list string) :=
  {| Indexing.SentenceTransformerEmbeddings := fun _ => Return tt;
     Indexing.split_text := fun _ _ _ _ => Return chunks;
     Indexing.FAISS_from_texts := fun texts _ => Return texts;
     Indexing.as_retriever :=
       fun texts _ =>
         {| QaEngine.invoke := fun _ => Return (map QaEngine.Document texts);
            QaEngine.get_relevant_documents :=
              fun _ => Return (map QaEngine.Document texts) |} |}.



End Scenario.

(** ** Failed turns *)

Module ChatTurn.
Import Py Requests ChatEngine.

(** A chat turn fails during generation when the request raises (the
    backend cannot be reached, the request times out, or anything
    else), when the status is not 200, when reading the stream raises,
    or when the stream ends without having yielded a token. *)
Inductive fails (self : AthenaChat) (post : backend) (user_message : string) : Prop :=
| fails_request (e : exn) :
    post (build_request self user_message) = Raises e ->
    fails self post user_message
| fails_status (r : response) :
    post (build_request self user_message) = Return r ->
    status_code r <> 200 ->
    fails self post user_message
| fails_reading (r : response) (e : exn) :
    post (build_request self user_message) = Return r ->
    snd (read_stream (iter_lines r)) = Some e ->
    fails self post user_message
| fails_no_token (r : response) :
    post (build_request self user_message) = Return r ->
    fst (read_stream (iter_lines r)) = [] ->
    fails self post user_message.

(** A turn completes when the stream is read to its end or to its
    terminal marker and the tokens join to an answer that is not
    blank. *)
Definition completes (self : AthenaChat) (post : backend) (user_message : string)
    (assistant_message : string) : Prop :=
  exists (r : response) (tokens : list value) (joined : string),
    _response_cache self !! _get_cache_key self user_message = None /\
    post (build_request self user_message) = Return r /\
    status_code r = 200 /\
    read_stream (iter_lines r) = (tokens, None) /\
    join_values tokens = Return joined /\
    assistant_message = strip joined /\
    assistant_message <> "".



End ChatTurn.

(** ** The stream as the specification reads it *)

Module StreamSpec.
Import Py Requests.

(** A line is a record of the expected format when it decodes to a
    JSON object; every other line carries nothing. *)
Definition parse (l : line) : option (list (string * value)) :=
  match l with
  | Data (Return (VDict d)) => Some d
  | _ => None
  end.

(** The incremental token of a record, when it has one. *)
Definition token_of (d : list (string * value)) : list value :=
  let token := dict_get d "response" (VStr "") in
  if truthy token then [token] else [].

(** The record carries the terminal marker. *)
Definition terminal (d : list (string * value)) : bool :=
  truthy (dict_get d "done" (VBool false)).

(** The tokens of the records up to the first terminal marker, the
    token of the record that carries the marker included. *)
Fixpoint tokens_until_done (records : list (list (string * value))) : list value :=
  match records with
  | [] => []
  | d :: rest => token_of d ++ (if terminal d then [] else tokens_until_done rest)
  end.

(** Blank lines and lines that are not records are passed over. *)
Definition expected_tokens (lines : list line) : list value :=
  tokens_until_done (omap parse lines).

(** The iterator yields every line: reading never raises. *)
Definition intact (l : line) : Prop :=
  match l with
  | Broken _ => False
  | _ => True
  end.

(** The lines on which the two readers of the program agree: blank
    lines, lines on which [json.loads] raises [JSONDecodeError], and
    JSON objects. *)
Definition plain (l : line) : Prop :=
  match l with
  | Blank => True
  | Data (Raises e) => is_JSONDecodeError e = true
  | Data (Return (VDict _)) => True
  | _ => False
  end.

End StreamSpec.

(** ** Shapes of text *)

Module TextSpec.
Import Py.


(** The pages of a document that all read. *)
Definition readable (texts : list string) : PdfUtils.pdf_file := map Return texts.

End TextSpec.

Example md5_empty : Hashlib.md5_hexdigest "" = "d41d8cd98f00b204e9800998ecf8427e".
Proof. vm_compute. reflexivity. Qed.

Example md5_hello : Hashlib.md5_hexdigest "hello" = "5d41402abc4b2a76b9719d911017c592".
Proof. vm_compute. reflexivity. Qed.

Example md5_message_digest :
  Hashlib.md5_hexdigest "message digest" = "f96b697d7cb7938d525a2f31aaf161d0".
Proof. vm_compute. reflexivity. Qed.

(** The fuel given to [Hashlib.blocks] never runs out: each block takes
    at least one word, and the fuel is the number of words. *)
Lemma blocks_fuel_suffices (fuel : nat) (st : Hashlib.state) (ws : list Z) :
  (length ws <= fuel)%nat ->
  Hashlib.blocks (S fuel) st ws = Hashlib.blocks fuel st ws.
Proof.
  revert st ws. induction fuel as [|fuel IH]; intros st ws Hlen.
  - destruct ws; [reflexivity | simpl in Hlen; lia].
  - destruct ws as [|w ws]; [reflexivity |].
    change (Hashlib.blocks (S (S fuel)) st (w :: ws))
      with (Hashlib.blocks (S fuel) (Hashlib.block st (firstn 16 (w :: ws)))
              (skipn 16 (w :: ws))).
    change (Hashlib.blocks (S fuel) st (w :: ws))
      with (Hashlib.blocks fuel (Hashlib.block st (firstn 16 (w :: ws)))
              (skipn 16 (w :: ws))).
    apply IH. rewrite length_skipn. simpl in *. lia.
Qed.

(** [clean_extracted_text] on the sample of the source and on a few
    short texts: the results are those of the three substitutions and
    the final strip. *)
Example clean_sample :
  PdfUtils.clean_extracted_text
    ("M a y  2 0 2 5  -  A u g  2 0 2 5" +:+ nl +:+ "P y t h o n")
  = "May2025-Aug2025Pytho n".
Proof. vm_compute. reflexivity. Qed.

Example clean_short_texts :
  PdfUtils.clean_extracted_text "a b a b a b" = "ababa b" /\
  PdfUtils.clean_extracted_text (" a  b c" +:+ nl) = "abc" /\
  PdfUtils.clean_extracted_text ("The capital of France is Paris." +:+ nl)
    = "The capital of France is Paris." /\
  PdfUtils.sub_runs false "a   b c  d   " = "a b c d " /\
  PdfUtils.sub_letters 0 "ab c  d e f g h" = "abcd efg h".
Proof. repeat split; vm_compute; reflexivity. Qed.

(** ** Facts about strings *)

Section Strings.
Import Py.

Lemma append_cons (c : ascii) (a b : string) :
  String c a +:+ b = String c (a +:+ b).
Proof. reflexivity. Qed.


Lemma append_empty_r (s : string) : s +:+ "" = s.
Proof.
  induction s as [|c s IH]; [reflexivity |].
  rewrite append_cons. f_equal. exact IH.
Qed.

Lemma append_assoc (a b c : string) : (a +:+ b) +:+ c = a +:+ (b +:+ c).
Proof.
  induction a as [|x a IH]; [reflexivity |].
  rewrite !append_cons. f_equal. exact IH.
Qed.

Lemma length_append (a b : string) :
  String.length (a +:+ b) = (String.length a + String.length b)%nat.
Proof.
  induction a as [|x a IH]; [reflexivity |].
  rewrite append_cons. simpl. f_equal. exact IH.
Qed.


Lemma truthy_str (s : string) : truthy (VStr s) = true <-> s <> "".
Proof.
  simpl. destruct (String.eqb_spec s ""); simpl; split; congruence.
Qed.


Lemma startswith_append (x rest : string) : startswith x (x +:+ rest) = true.
Proof.
  induction x as [|c x IH]; [reflexivity |].
  rewrite append_cons. simpl. now rewrite Ascii.eqb_refl.
Qed.

Lemma contains_here (x rest : string) : contains x (x +:+ rest) = true.
Proof.
  pose proof (startswith_append x rest) as H.
  destruct (x +:+ rest); simpl; rewrite H; reflexivity.
Qed.

Lemma contains_later (x before s : string) :
  contains x s = true -> contains x (before +:+ s) = true.
Proof.
  intros H. induction before as [|c before IH]; [exact H |].
  rewrite append_cons. simpl. rewrite IH. apply orb_true_r.
Qed.

Lemma strip_empty : strip "" = "".
Proof. reflexivity. Qed.

End Strings.

(** Finds a needle in a right-nested concatenation. *)
Ltac find_in_prompt :=
  repeat first [ apply contains_here | apply contains_later ].

(** ** The cache fingerprint *)

Section Fingerprint.
Import Py ChatEngine.

Lemma cache_key_unfold (self : AthenaChat) (q : string) :
  _get_cache_key self q =
  context_hash self +:+ "_" +:+ Hashlib.md5_hexdigest (strip (lower q)).
Proof. reflexivity. Qed.


(** The worked case of the specification, for every session. *)
Lemma cache_key_hello (self : AthenaChat) :
  _get_cache_key self "Hello " = _get_cache_key self "hello".
Proof.
  unfold _get_cache_key.
  replace (strip (lower "Hello ")) with (strip (lower "hello")) by (vm_compute; reflexivity).
  reflexivity.
Qed.




(** A session without a document and one whose document is empty
    share their fingerprints as well. *)
Lemma fingerprint_absent_or_empty (self : AthenaChat) (q : string) :
  _get_cache_key (clear_pdf_context self) q = _get_cache_key (set_pdf_context self "") q.
Proof. unfold _get_cache_key, context_hash. f_equal. Qed.


(** Contexts that agree on their first 1000 characters are not told
    apart, whatever the digest. *)
Lemma fingerprint_of_prefix (self1 self2 : AthenaChat) (q : string) :
  slice_to 1000 (pdf_context_or_empty self1) = slice_to 1000 (pdf_context_or_empty self2) ->
  _get_cache_key self1 q = _get_cache_key self2 q.
Proof.
  intros H. unfold _get_cache_key, context_hash. now rewrite H.
Qed.

(** With MD5 as the digest, the sample contexts below are told apart. *)
Example fingerprint_changes_with_context :
  _get_cache_key (set_pdf_context default "The capital of France is Paris.")
                 Scenario.question <>
  _get_cache_key (set_pdf_context default "Paris has a population of about 2 million.")
                 Scenario.question.
Proof. vm_compute. discriminate. Qed.

End Fingerprint.

(** ** Invalidation of the cache *)

Section Invalidation.
Import Py ChatEngine.

(** C7. After a new document context is set, after the history is
    cleared and after the document context is removed, the cache is
    empty: no fingerprint has an entry. *)
Theorem cache_empty_after_invalidation (self : AthenaChat) (pdf_text f : string) :
  _response_cache (set_pdf_context self pdf_text) !! f = None /\
  _response_cache (clear_history self) !! f = None /\
  _response_cache (clear_pdf_context self) !! f = None.
Proof.
  simpl. repeat split; apply lookup_empty.
Qed.

(** The three operations touch nothing else than what they name. *)
Lemma invalidation_keeps_history (self : AthenaChat) (pdf_text : string) :
  chat_history (set_pdf_context self pdf_text) = chat_history self /\
  chat_history (clear_pdf_context self) = chat_history self /\
  chat_history (clear_history self) = [].
Proof. repeat split. Qed.

End Invalidation.

(** ** Semantic search *)

Section Search.
Import Py SemanticSearch.








End Search.

(** ** The extraction fallback *)

Section Extraction.
Import Py PdfUtils.






(** Both sides of the threshold are met.  Text with a run of two
    spaces is returned cleaned.  Text spaced letter by letter loses
    more than half of its 27 characters, and text made of white space
    loses them all: both are returned as they were read. *)
Example advanced_extraction_cleans :
  extract_text_from_pdf_advanced Scenario.plain_pdf
  = "The capital of France" +:+ nl +:+ "is Paris.".
Proof. vm_compute. reflexivity. Qed.

Example advanced_extraction_keeps_spaced :
  clean_extracted_text (extracted_text Scenario.spaced_pdf) = "May2025Python" /\
  extract_text_from_pdf_advanced Scenario.spaced_pdf
  = "M a y  2 0 2 5" +:+ nl +:+ "P y t h o n" +:+ nl.
Proof. split; vm_compute; reflexivity. Qed.

Example advanced_extraction_keeps_blank :
  clean_extracted_text (extracted_text Scenario.blank_pdf) = "" /\
  extract_text_from_pdf_advanced Scenario.blank_pdf = "    " +:+ nl.
Proof. split; vm_compute; reflexivity. Qed.

End Extraction.

(** ** A chat turn *)

Section Turn.
Import Py Requests ChatEngine.

Variables (self : AthenaChat) (post : backend) (now : Z) (user_message : string).

Lemma chat_stream_hit (cached : string) :
  _response_cache self !! _get_cache_key self user_message = Some cached ->
  chat_stream self post now user_message = ([VStr cached], self).
Proof.
  intros H. unfold chat_stream. now rewrite H.
Qed.

Lemma chat_stream_request_raises (e : exn) :
  _response_cache self !! _get_cache_key self user_message = None ->
  post (build_request self user_message) = Raises e ->
  chat_stream self post now user_message = ([VStr (chat_stream_except e)], self).
Proof.
  intros Hmiss Hpost. unfold chat_stream, chat_stream_try.
  now rewrite Hmiss, Hpost.
Qed.

Lemma chat_stream_bad_status (r : response) :
  _response_cache self !! _get_cache_key self user_message = None ->
  post (build_request self user_message) = Return r ->
  status_code r <> 200 ->
  chat_stream self post now user_message =
    ([VStr (cross_mark +:+ " Error: " +:+ str_of_Z (status_code r))], self).
Proof.
  intros Hmiss Hpost Hstatus. unfold chat_stream, chat_stream_try.
  rewrite Hmiss, Hpost.
  apply Z.eqb_neq in Hstatus. now rewrite Hstatus.
Qed.

Lemma chat_stream_reading_raises (r : response) (tokens : list value) (e : exn) :
  _response_cache self !! _get_cache_key self user_message = None ->
  post (build_request self user_message) = Return r ->
  status_code r = 200 ->
  read_stream (iter_lines r) = (tokens, Some e) ->
  chat_stream self post now user_message =
    (tokens ++ [VStr (chat_stream_except e)], self).
Proof.
  intros Hmiss Hpost Hstatus Hread. unfold chat_stream, chat_stream_try.
  rewrite Hmiss, Hpost.
  apply Z.eqb_eq in Hstatus. now rewrite Hstatus, Hread.
Qed.

Lemma chat_stream_join_raises (r : response) (tokens : list value) (e : exn) :
  _response_cache self !! _get_cache_key self user_message = None ->
  post (build_request self user_message) = Return r ->
  status_code r = 200 ->
  read_stream (iter_lines r) = (tokens, None) ->
  join_values tokens = Raises e ->
  chat_stream self post now user_message =
    (tokens ++ [VStr (chat_stream_except e)], self).
Proof.
  intros Hmiss Hpost Hstatus Hread Hjoin. unfold chat_stream, chat_stream_try.
  rewrite Hmiss, Hpost.
  apply Z.eqb_eq in Hstatus. now rewrite Hstatus, Hread, Hjoin.
Qed.

Lemma chat_stream_completes (r : response) (tokens : list value) (joined : string) :
  _response_cache self !! _get_cache_key self user_message = None ->
  post (build_request self user_message) = Return r ->
  status_code r = 200 ->
  read_stream (iter_lines r) = (tokens, None) ->
  join_values tokens = Return joined ->
  chat_stream self post now user_message =
    (tokens,
     if truthy (VStr (strip joined))
     then record_turn self now (_get_cache_key self user_message) user_message (strip joined)
     else self).
Proof.
  intros Hmiss Hpost Hstatus Hread Hjoin. unfold chat_stream, chat_stream_try.
  rewrite Hmiss, Hpost.
  apply Z.eqb_eq in Hstatus. rewrite Hstatus, Hread, Hjoin. simpl negb.
  cbv iota beta. now destruct (truthy (VStr (strip joined))).
Qed.

(** Either the turn leaves the session as it found it, or it
    completed and recorded the stripped answer. *)
Lemma chat_stream_state :
  snd (chat_stream self post now user_message) = self \/
  exists assistant_message,
    ChatTurn.completes self post user_message assistant_message /\
    snd (chat_stream self post now user_message) =
      record_turn self now (_get_cache_key self user_message) user_message assistant_message.
Proof.
  destruct (_response_cache self !! _get_cache_key self user_message) as [cached|] eqn:Hmiss.
  { left. now rewrite (chat_stream_hit cached Hmiss). }
  destruct (post (build_request self user_message)) as [r|e] eqn:Hpost.
  2:{ left. now rewrite (chat_stream_request_raises e Hmiss Hpost). }
  destruct (Z.eq_dec (status_code r) 200) as [Hstatus|Hstatus].
  2:{ left. now rewrite (chat_stream_bad_status r Hmiss Hpost Hstatus). }
  destruct (read_stream (iter_lines r)) as [tokens [e|]] eqn:Hread.
  { left. now rewrite (chat_stream_reading_raises r tokens e Hmiss Hpost Hstatus Hread). }
  destruct (join_values tokens) as [joined|e] eqn:Hjoin.
  2:{ left. now rewrite (chat_stream_join_raises r tokens e Hmiss Hpost Hstatus Hread Hjoin). }
  rewrite (chat_stream_completes r tokens joined Hmiss Hpost Hstatus Hread Hjoin).
  destruct (truthy (VStr (strip joined))) eqn:Htruthy; [right | now left].
  exists (strip joined). split; [| reflexivity].
  exists r, tokens, joined. apply truthy_str in Htruthy. now repeat split.
Qed.

End Turn.

(** ** Recording *)

Section Recording.
Import Py Requests ChatEngine.

(** A turn cannot both fail and complete. *)
Lemma fails_not_completes (self : AthenaChat) (post : backend) (user_message : string)
    (assistant_message : string) :
  ChatTurn.fails self post user_message ->
  ChatTurn.completes self post user_message assistant_message ->
  False.
Proof.
  intros Hfails (r & tokens & joined & _ & Hpost & Hstatus & Hread & Hjoin & Hmsg & Hne).
  destruct Hfails as [e He | r' Hr' Hs | r' e Hr' He | r' Hr' Hnone].
  - congruence.
  - assert (r' = r) by congruence. subst r'. contradiction.
  - assert (r' = r) by congruence. subst r'. rewrite Hread in He. discriminate He.
  - assert (r' = r) by congruence. subst r'. rewrite Hread in Hnone. simpl in Hnone.
    subst tokens. injection Hjoin as <-. now subst assistant_message.
Qed.

(** C1. A chat turn that fails during generation (the request raises,
    as on a connection failure or a timeout, the status is not 200,
    reading the stream raises, or no token arrives) leaves the history
    and the cache as they were: the log keeps its length and no entry is
    written.  A turn changes them only when it completes, by recording
    the whole, non-empty assistant message. *)
Theorem failed_turn_records_nothing (self : AthenaChat) (post : backend) (now : Z)
    (user_message : string) :
  (ChatTurn.fails self post user_message ->
   snd (chat_stream self post now user_message) = self /\
   length (get_history (snd (chat_stream self post now user_message)))
     = length (get_history self) /\
   _response_cache (snd (chat_stream self post now user_message))
     = _response_cache self) /\
  (snd (chat_stream self post now user_message) <> self ->
   exists assistant_message,
     ChatTurn.completes self post user_message assistant_message /\
     snd (chat_stream self post now user_message) =
       record_turn self now (_get_cache_key self user_message) user_message
         assistant_message).
Proof.
  destruct (chat_stream_state self post now user_message) as [Same | (msg & Hdone & Hrec)].
  - split; [| contradiction]. intros _. now rewrite Same.
  - split; [| intros _; now exists msg].
    intros Hfails. exfalso. exact (fails_not_completes _ _ _ _ Hfails Hdone).
Qed.

Lemma failed_turn_records_nothing_witness :
  ChatTurn.fails default Scenario.unreachable "Hello, who are you?" /\
  snd (chat_stream default Scenario.unreachable 0 "Hello, who are you?") = default.
Proof.
  assert (ChatTurn.fails default Scenario.unreachable "Hello, who are you?") as H.
  { apply ChatTurn.fails_request with (e := Raise ConnectionError "Connection refused").
    reflexivity. }
  split; [exact H |].
  exact (proj1 (proj1 (failed_turn_records_nothing default Scenario.unreachable 0
                         "Hello, who are you?") H)).
Defined.

(** Each way of failing, on a fresh session: what is yielded, and the
    session left as it was.  A token that is blank completes the stream
    but is no answer: nothing is recorded either. *)
Example turn_against_unreachable_backend :
  chat_stream default Scenario.unreachable 0 "Hello"
  = ([VStr (cross_mark
              +:+ " Could not connect to Ollama. Make sure it's running: `ollama serve`")],
     default).
Proof. vm_compute. reflexivity. Qed.

Example turn_that_times_out :
  chat_stream default Scenario.timing_out 0 "Hello"
  = ([VStr (cross_mark
              +:+ " Request timed out. The model is taking too long to respond.")],
     default).
Proof. vm_compute. reflexivity. Qed.

Example turn_that_stalls_midway :
  chat_stream default (Scenario.always Scenario.stalled) 0 "Hello"
  = ([VStr "Paris"; VStr " is";
      VStr (cross_mark
              +:+ " Request timed out. The model is taking too long to respond.")],
     default).
Proof. vm_compute. reflexivity. Qed.

Example turn_without_tokens :
  chat_stream default (Scenario.always Scenario.silent) 0 "Hello" = ([], default) /\
  chat_stream default (Scenario.always Scenario.blank) 0 "Hello" = ([VStr " "], default).
Proof. split; vm_compute; reflexivity. Qed.

(** A turn that completes appends one exchange and writes one entry. *)
Lemma record_turn_appends (self : AthenaChat) (now : Z) (key user_message answer : string) :
  get_history (record_turn self now key user_message answer) =
    get_history self ++ [Exchange now user_message answer] /\
  length (get_history (record_turn self now key user_message answer)) =
    S (length (get_history self)) /\
  _response_cache (record_turn self now key user_message answer) !! key = Some answer.
Proof.
  unfold get_history. simpl. repeat split.
  - rewrite length_app. simpl. lia.
  - apply lookup_insert_eq.
Qed.


End Recording.

(** ** The stream readers *)

Section Readers.
Import Py Requests StreamSpec.

(** X9. The reader of the question-answering path passes over every line
    that is not a record, whatever decoding it raised, and yields the
    tokens of the records up to the terminal marker. *)
Lemma qa_reader_fail_open (lines : list line) :
  Forall intact lines ->
  QaEngine.read_stream lines = (expected_tokens lines, None).
Proof.
  unfold expected_tokens.
  induction 1 as [|l lines Hl _ IH]; [reflexivity |].
  destruct l as [|[data|e]|e]; simpl in *; try contradiction; try exact IH.
  destruct data; simpl; try exact IH.
  unfold token_of, terminal.
  destruct (truthy (dict_get items "done" (VBool false))).
  - now rewrite app_nil_r.
  - now rewrite IH.
Qed.

(** X10. The reader of the chat path does the same on blank lines, on lines
    that raise [JSONDecodeError] and on JSON objects. *)
Lemma chat_reader_on_plain_lines (lines : list line) :
  Forall plain lines ->
  ChatEngine.read_stream lines = (expected_tokens lines, None).
Proof.
  unfold expected_tokens.
  induction 1 as [|l lines Hl _ IH]; [reflexivity |].
  destruct l as [|[data|e]|e]; simpl in *; try contradiction; try exact IH.
  - destruct data; simpl; try contradiction.
    unfold token_of, terminal.
    destruct (truthy (dict_get items "done" (VBool false))).
    + now rewrite app_nil_r.
    + now rewrite IH.
  - now rewrite Hl.
Qed.

(** X11. On any other line the reader of the chat path stops with the
    exception that decoding or the field access raised, after the tokens
    it had yielded; the lines that follow are not read. *)
Lemma chat_reader_stops_at_other_lines (before after : list line) (l : line) (e : exn) :
  Forall plain before ->
  Forall (fun l => match parse l with Some d => terminal d = false | None => True end)
         before ->
  (l = Data (Raises e) /\ is_JSONDecodeError e = false \/
   exists data, l = Data (Return data) /\ parse l = None /\ e = no_attribute_get data) ->
  ChatEngine.read_stream (before ++ l :: after) = (expected_tokens before, Some e).
Proof.
  unfold expected_tokens. intros Hplain Hopen Hl.
  induction before as [|b before IH].
  - simpl. destruct Hl as [[-> Hne] | (data & -> & Hparse & ->)].
    + simpl. now rewrite Hne.
    + destruct data; simpl in *; try reflexivity. discriminate Hparse.
  - inversion Hplain as [|? ? Hb Hrest]; subst.
    inversion Hopen as [|? ? Hob Horest]; subst.
    specialize (IH Hrest Horest).
    destruct b as [|[data|e']|e']; simpl in *; try contradiction; try exact IH.
    + destruct data; simpl in *; try contradiction.
      unfold terminal in Hob. unfold token_of, terminal. rewrite Hob.
      now rewrite IH.
    + now rewrite Hb.
Qed.

End Readers.

(** ** Lines that are not records *)

Section Undecodable.
Import Py Requests ChatEngine.

(** C2. A stream with a line that is not valid UTF-8 between two
    records: [json.loads] raises [UnicodeDecodeError], which is not a
    [JSONDecodeError].  The question-answering path passes over the line
    and yields both tokens, the second from the record that carries the
    terminal marker.  The chat path stops at the line: it yields the
    first token and an error message, never reads the second record and
    records nothing.  The same happens on a line that is JSON but not an
    object, here [null], where the field access raises. *)
Theorem chat_stream_stops_at_undecodable_line :
  QaEngine.read_stream (iter_lines Scenario.garbled)
    = ([VStr "Hi"; VStr " there"], None) /\
  read_stream (iter_lines Scenario.garbled) = ([VStr "Hi"], Some Scenario.undecodable) /\
  chat_stream default (Scenario.always Scenario.garbled) 0 "Hello"
    = ([VStr "Hi";
        VStr (cross_mark +:+ " Error: 'utf-8' codec can't decode byte 0xff in position 0: "
                +:+ "invalid start byte")],
       default) /\
  QaEngine.read_stream (iter_lines Scenario.with_null)
    = ([VStr "Hi"; VStr " there"], None) /\
  chat_stream default (Scenario.always Scenario.with_null) 0 "Hello"
    = ([VStr "Hi";
        VStr (cross_mark +:+ " Error: 'NoneType' object has no attribute 'get'")],
       default).
Proof. repeat split; vm_compute; reflexivity. Qed.

(** A line on which [json.loads] raises [JSONDecodeError] is passed
    over by both paths. *)
Example both_paths_skip_malformed_json :
  QaEngine.read_stream (iter_lines Scenario.malformed)
    = ([VStr "Hi"; VStr " there"], None) /\
  chat_stream default (Scenario.always Scenario.malformed) 0 "Hello"
    = ([VStr "Hi"; VStr " there"],
       record_turn default 0 (_get_cache_key default "Hello") "Hello" "Hi there").
Proof. split; vm_compute; reflexivity. Qed.

End Undecodable.

(** ** Failures of the backend *)

Section Failures.
Import Py Requests.

(** The question-answering path: what is yielded when the request
    raises and when the status is not 200. *)
Lemma answer_stream_request_raises (r : QaEngine.retriever) (model : string) (post : backend)
    (question : string) (doc : QaEngine.document) (docs : list QaEngine.document) (e : exn) :
  QaEngine.retrieve r question = Return (doc :: docs) ->
  post (QaEngine.build_request model
          (QaEngine.build_prompt
             (join (nl +:+ nl +:+ "---" +:+ nl +:+ nl)
                   (map QaEngine.page_content (doc :: docs)))
             question)) = Raises e ->
  QaEngine.answer_stream r model post question = [VStr (QaEngine.answer_stream_except e)].
Proof.
  intros Hdocs Hpost. unfold QaEngine.answer_stream, QaEngine.answer_stream_try.
  now rewrite Hdocs, Hpost.
Qed.

Lemma answer_stream_bad_status (r : QaEngine.retriever) (model : string) (post : backend)
    (question : string) (doc : QaEngine.document) (docs : list QaEngine.document)
    (resp : response) :
  QaEngine.retrieve r question = Return (doc :: docs) ->
  post (QaEngine.build_request model
          (QaEngine.build_prompt
             (join (nl +:+ nl +:+ "---" +:+ nl +:+ nl)
                   (map QaEngine.page_content (doc :: docs)))
             question)) = Return resp ->
  status_code resp <> 200 ->
  QaEngine.answer_stream r model post question =
    [VStr (cross_mark +:+ " Ollama API error " +:+ str_of_Z (status_code resp)
             +:+ ": " +:+ text resp)].
Proof.
  intros Hdocs Hpost Hstatus. unfold QaEngine.answer_stream, QaEngine.answer_stream_try.
  rewrite Hdocs, Hpost. apply Z.eqb_neq in Hstatus. now rewrite Hstatus.
Qed.

(** X14. The three conditions are reported by three different messages, on
    both paths.  A timeout while connecting is both a connection error
    and a timeout; the paths order their handlers differently and so
    file it differently. *)
Lemma chat_messages_differ (e1 e2 : exn) (status : Z) :
  is_ConnectionError e1 = true ->
  is_ConnectionError e2 = false -> is_Timeout e2 = true ->
  ChatEngine.chat_stream_except e1 <> ChatEngine.chat_stream_except e2 /\
  ChatEngine.chat_stream_except e1 <> cross_mark +:+ " Error: " +:+ str_of_Z status /\
  ChatEngine.chat_stream_except e2 <> cross_mark +:+ " Error: " +:+ str_of_Z status.
Proof.
  intros H1 H2 H3. unfold ChatEngine.chat_stream_except. rewrite H1, H2, H3.
  repeat split; intros H; cbv in H; discriminate H.
Qed.

(** X15. On the question-answering path too, a connection failure, a
    timeout and a status other than 200 are reported by three
    different messages, whatever the status and the body. *)
Lemma qa_messages_differ (e1 e2 : exn) (status : Z) (body : string) :
  is_Timeout e1 = false -> is_ConnectionError e1 = true ->
  is_Timeout e2 = true ->
  QaEngine.answer_stream_except e1 <> QaEngine.answer_stream_except e2 /\
  QaEngine.answer_stream_except e1
    <> cross_mark +:+ " Ollama API error " +:+ str_of_Z status +:+ ": " +:+ body /\
  QaEngine.answer_stream_except e2
    <> cross_mark +:+ " Ollama API error " +:+ str_of_Z status +:+ ": " +:+ body.
Proof.
  intros H1 H2 H3. unfold QaEngine.answer_stream_except. rewrite H1, H2, H3.
  repeat split; intros H; cbv in H; discriminate H.
Qed.

Example connect_timeout_is_filed_differently :
  ChatEngine.chat_stream_except (Raise ConnectTimeout "timed out")
    = cross_mark +:+ " Could not connect to Ollama. Make sure it's running: `ollama serve`" /\
  QaEngine.answer_stream_except (Raise ConnectTimeout "timed out")
    = cross_mark +:+ " Request timed out. The model might be processing a large context.".
Proof. split; reflexivity. Qed.

(** On the chat path the message for a status other than 200 depends
    on the status alone. *)
Lemma chat_status_message_ignores_body (self : ChatEngine.AthenaChat) (post1 post2 : backend)
    (now : Z) (user_message : string) (r1 r2 : response) :
  ChatEngine._response_cache self !! ChatEngine._get_cache_key self user_message = None ->
  post1 (ChatEngine.build_request self user_message) = Return r1 ->
  post2 (ChatEngine.build_request self user_message) = Return r2 ->
  status_code r1 = status_code r2 ->
  status_code r1 <> 200 ->
  ChatEngine.chat_stream self post1 now user_message
    = ChatEngine.chat_stream self post2 now user_message.
Proof.
  intros Hmiss H1 H2 Hsame Hbad.
  rewrite (chat_stream_bad_status self post1 now user_message r1 Hmiss H1 Hbad).
  rewrite Hsame in Hbad.
  rewrite (chat_stream_bad_status self post2 now user_message r2 Hmiss H2 Hbad).
  now rewrite Hsame.
Qed.

(** C4. A response with status 404 and a body that explains it.  The
    question-answering path yields one message with the status and the
    body.  The chat path yields one message with the status only: the
    body is not in it. *)
Theorem chat_stream_status_error_omits_body :
  QaEngine.answer_stream Scenario.retriever "llama3.2:1b"
      (Scenario.always Scenario.not_found) Scenario.question
    = [VStr (cross_mark +:+ " Ollama API error 404: " +:+ text Scenario.not_found)] /\
  ChatEngine.chat_stream ChatEngine.default (Scenario.always Scenario.not_found) 0
      Scenario.question
    = ([VStr (cross_mark +:+ " Error: 404")], ChatEngine.default) /\
  contains (text Scenario.not_found) (cross_mark +:+ " Error: 404") = false.
Proof. repeat split; vm_compute; reflexivity. Qed.

End Failures.

(** ** The non-streaming call *)

Section Chat.
Import Py Requests ChatEngine.

(** On a miss [chat] joins what [chat_stream] yields and leaves the
    state that [chat_stream] leaves. *)
Lemma chat_miss (self : AthenaChat) (post : backend) (now : Z) (user_message : string) :
  _response_cache self !! _get_cache_key self user_message = None ->
  chat self post now user_message =
    (join_values (fst (chat_stream self post now user_message)),
     snd (chat_stream self post now user_message)).
Proof.
  intros Hmiss. unfold chat. rewrite Hmiss.
  now destruct (chat_stream self post now user_message).
Qed.




End Chat.

(** ** End to end *)

Section EndToEnd.
Import Py Requests.

(** The grounded prompt carries the question and the refusal sentence,
    whatever the context and the question. *)
Lemma qa_prompt_contains (context question : string) :
  contains question (QaEngine.build_prompt context question) = true /\
  contains QaEngine.refusal_sentence (QaEngine.build_prompt context question) = true.
Proof.
  unfold QaEngine.build_prompt. split; find_in_prompt.
Qed.

(** The chat prompt carries the message of the user. *)
Lemma chat_prompt_contains (self : ChatEngine.AthenaChat) (user_message : string) :
  contains user_message (ChatEngine.build_prompt self user_message) = true.
Proof.
  unfold ChatEngine.build_prompt.
  destruct (truthy (VStr (ChatEngine.pdf_context_or_empty self))); find_in_prompt.
Qed.

(** C8. In the scenario, the grounded prompt contains the question and
    the refusal sentence; a backend that streams the five token records,
    the last one carrying the terminal marker, gives the answer
    "Paris is the capital." on the question-answering path and on the
    chat path, where exactly one exchange is appended to the history. *)
Theorem end_to_end_scenario (self : ChatEngine.AthenaChat) (now : Z) :
  ChatEngine._response_cache self !! ChatEngine._get_cache_key self Scenario.question = None ->
  contains Scenario.question
    (QaEngine.build_prompt Scenario.context Scenario.question) = true /\
  contains QaEngine.refusal_sentence
    (QaEngine.build_prompt Scenario.context Scenario.question) = true /\
  QaEngine.answer_stream Scenario.retriever "llama3.2:1b"
    (Scenario.expecting [Scenario.question; QaEngine.refusal_sentence] Scenario.paris)
    Scenario.question = Scenario.tokens /\
  QaEngine.answer Scenario.retriever "llama3.2:1b"
    (Scenario.expecting [Scenario.question; QaEngine.refusal_sentence] Scenario.paris)
    Scenario.question = Return "Paris is the capital." /\
  fst (ChatEngine.chat_stream self (Scenario.expecting [Scenario.question] Scenario.paris)
         now Scenario.question) = Scenario.tokens /\
  fst (ChatEngine.chat self (Scenario.expecting [Scenario.question] Scenario.paris)
         now Scenario.question) = Return "Paris is the capital." /\
  ChatEngine.get_history
    (snd (ChatEngine.chat self (Scenario.expecting [Scenario.question] Scenario.paris)
            now Scenario.question))
  = ChatEngine.get_history self
      ++ [ChatEngine.Exchange now Scenario.question "Paris is the capital."] /\
  length (ChatEngine.get_history
    (snd (ChatEngine.chat self (Scenario.expecting [Scenario.question] Scenario.paris)
            now Scenario.question)))
  = S (length (ChatEngine.get_history self)).
Proof.
  intros Hmiss.
  split; [apply qa_prompt_contains |]. split; [apply qa_prompt_contains |].
  split; [vm_compute; reflexivity |]. split; [vm_compute; reflexivity |].
  assert (Scenario.expecting [Scenario.question] Scenario.paris
            (ChatEngine.build_request self Scenario.question) = Return Scenario.paris)
    as Hpost.
  { unfold Scenario.expecting. cbn [forallb json p_prompt ChatEngine.build_request].
    now rewrite chat_prompt_contains. }
  assert (ChatEngine.read_stream (iter_lines Scenario.paris) = (Scenario.tokens, None))
    as Hread by (vm_compute; reflexivity).
  assert (join_values Scenario.tokens = Return "Paris is the capital.") as Hjoin
    by (vm_compute; reflexivity).
  rewrite (chat_miss self _ now Scenario.question Hmiss).
  rewrite (chat_stream_completes self _ now Scenario.question Scenario.paris
             Scenario.tokens "Paris is the capital." Hmiss Hpost eq_refl Hread Hjoin).
  cbn [fst snd].
  replace (strip "Paris is the capital.") with "Paris is the capital."
    by (vm_compute; reflexivity).
  cbn [truthy String.eqb Ascii.eqb Bool.eqb negb].
  repeat split; try exact Hjoin.
  apply record_turn_appends.
Qed.

Lemma end_to_end_scenario_witness :
  ChatEngine._response_cache ChatEngine.default
    !! ChatEngine._get_cache_key ChatEngine.default Scenario.question = None /\
  ChatEngine.get_history
    (snd (ChatEngine.chat ChatEngine.default
            (Scenario.expecting [Scenario.question] Scenario.paris) 0 Scenario.question))
  = [ChatEngine.Exchange 0 Scenario.question "Paris is the capital."].
Proof.
  assert (ChatEngine._response_cache ChatEngine.default
            !! ChatEngine._get_cache_key ChatEngine.default Scenario.question = None)
    as Hmiss by apply lookup_empty.
  split; [exact Hmiss |].
  destruct (end_to_end_scenario ChatEngine.default 0 Hmiss)
    as (_ & _ & _ & _ & _ & _ & Hhistory & _).
  exact Hhistory.
Defined.

End EndToEnd.

(** ** Stripping *)

Section Stripping.
Import Py.











End Stripping.

(** ** The cleaning of extracted text *)

Section Cleaning.
Import Py PdfUtils TextSpec.



















End Cleaning.

(** ** Reading the pages *)

Section Pages.
Import Py PdfUtils TextSpec.

Lemma read_pages_readable (texts : list string) (acc : string) :
  snd (read_pages (readable texts) acc) = None.
Proof.
  revert acc. induction texts as [|t texts IH]; intros acc; [reflexivity |].
  cbn [readable map read_pages]. apply IH.
Qed.

Lemma read_pages_until_failure (texts : list string) (e : exn) (rest : pdf_file)
    (acc : string) :
  read_pages (readable texts ++ Raises e :: rest) acc =
    (fst (read_pages (readable texts) acc), Some e).
Proof.
  revert acc. induction texts as [|t texts IH]; intros acc; [reflexivity |].
  cbn [readable map app read_pages]. apply IH.
Qed.

(** X24. A page that cannot be read makes the plain extraction raise what
    the page raised, whatever was read before.  The advanced extraction
    returns what it returns for the pages before it.  The pages after it
    are not read by either. *)
Theorem unreadable_page_ends_reading (texts : list string) (e : exn) (rest : pdf_file) :
  extract_text_from_pdf (readable texts ++ Raises e :: rest) = Raises e /\
  extract_text_from_pdf_advanced (readable texts ++ Raises e :: rest) =
    extract_text_from_pdf_advanced (readable texts).
Proof.
  unfold extract_text_from_pdf, extract_text_from_pdf_advanced, extracted_text.
  rewrite read_pages_until_failure. split; reflexivity.
Qed.





End Pages.

(** ** What a turn keeps *)

Section Sessions.
Import Py Requests ChatEngine.

(** A turn that completes leaves the session with the turn recorded. *)
Lemma chat_stream_of_completes (self : AthenaChat) (post : backend) (now : Z)
    (user_message answer : string) :
  ChatTurn.completes self post user_message answer ->
  snd (chat_stream self post now user_message) =
    record_turn self now (_get_cache_key self user_message) user_message answer.
Proof.
  intros (r & tokens & joined & Hmiss & Hpost & Hstatus & Hread & Hjoin & -> & Hne).
  rewrite (chat_stream_completes self post now user_message r tokens joined
             Hmiss Hpost Hstatus Hread Hjoin).
  apply truthy_str in Hne. now rewrite Hne.
Qed.

(** X1. A turn only ever appends to the history, at most one exchange, and
    touches neither the model, the temperature, the address of the
    backend nor the document. *)
Theorem turn_appends_at_most_one (self : AthenaChat) (post : backend) (now : Z)
    (user_message : string) :
  (exists added,
     chat_history (snd (chat_stream self post now user_message))
       = chat_history self ++ added /\
     (length added <= 1)%nat /\
     Forall (fun ex => user ex = user_message /\ timestamp ex = now) added) /\
  model (snd (chat_stream self post now user_message)) = model self /\
  temperature (snd (chat_stream self post now user_message)) = temperature self /\
  ollama_url (snd (chat_stream self post now user_message)) = ollama_url self /\
  pdf_context (snd (chat_stream self post now user_message)) = pdf_context self.
Proof.
  destruct (chat_stream_state self post now user_message) as [-> | (msg & _ & ->)].
  - split; [| repeat split]. exists []. rewrite app_nil_r. repeat split; [simpl; lia | constructor].
  - split; [| repeat split].
    exists [Exchange now user_message msg]. repeat split; [simpl; lia |].
    constructor; [split; reflexivity | constructor].
Qed.

(** X2. A turn never evicts or overwrites a cached answer: what was cached
    before is cached after, and the only key that can be new is the
    fingerprint of the message of the turn. *)
Theorem turn_keeps_cached_answers (self : AthenaChat) (post : backend) (now : Z)
    (user_message : string) :
  (forall key answer,
     _response_cache self !! key = Some answer ->
     _response_cache (snd (chat_stream self post now user_message)) !! key = Some answer) /\
  (forall key,
     _response_cache self !! key = None ->
     key <> _get_cache_key self user_message ->
     _response_cache (snd (chat_stream self post now user_message)) !! key = None).
Proof.
  destruct (chat_stream_state self post now user_message)
    as [-> | (msg & (r & tokens & joined & Hmiss & _) & ->)].
  - split; [intros key answer H; exact H | intros key H _; exact H].
  - split.
    + intros key answer H. simpl.
      destruct (decide (_get_cache_key self user_message = key)) as [<- | Hne].
      * rewrite Hmiss in H. discriminate H.
      * now rewrite lookup_insert_ne.
    + intros key H Hne. simpl. rewrite lookup_insert_ne; [exact H | congruence].
Qed.

Lemma turn_keeps_cached_answers_witness :
  _response_cache default !! _get_cache_key default "Hello" = None /\
  _response_cache
    (snd (chat_stream default (Scenario.always Scenario.paris) 0 Scenario.question))
    !! _get_cache_key default "Hello" = None.
Proof.
  assert (_response_cache default !! _get_cache_key default "Hello" = None) as H
    by apply lookup_empty.
  split; [exact H |].
  apply (proj2 (turn_keeps_cached_answers default (Scenario.always Scenario.paris) 0
                  Scenario.question) _ H).
  vm_compute. discriminate.
Defined.



End Sessions.

(** ** What every session keeps *)

Section Coherence.
Import Py Requests ChatEngine.





End Coherence.

(** ** What a request reads *)

Section Window.
Import Py Requests ChatEngine.






End Window.

(** ** The shape of a fingerprint *)

Section KeyShape.
Import Py ChatEngine.

Lemma length_le_bytes (width : nat) (x : Z) : length (Hashlib.le_bytes width x) = width.
Proof. unfold Hashlib.le_bytes. now rewrite length_map, length_seq. Qed.

Lemma length_digest (msg : list Z) : length (Hashlib.digest msg) = 16%nat.
Proof.
  unfold Hashlib.digest.
  destruct (Hashlib.blocks _ _ _) as [[[a b] c] d].
  now rewrite !length_app, !length_le_bytes.
Qed.

Lemma length_join_hex (l : list Z) :
  String.length (join "" (map Hashlib.hex_byte l)) = (2 * length l)%nat.
Proof.
  induction l as [|b l IH]; [reflexivity |].
  destruct l as [|b' l']; [reflexivity |].
  change (join "" (map Hashlib.hex_byte (b :: b' :: l')))
    with (Hashlib.hex_byte b +:+ "" +:+ join "" (map Hashlib.hex_byte (b' :: l'))).
  rewrite !length_append, IH. simpl. lia.
Qed.

(** An MD5 digest in hexadecimal has 32 characters. *)
Lemma length_md5_hexdigest (s : string) :
  String.length (Hashlib.md5_hexdigest s) = 32%nat.
Proof.
  unfold Hashlib.md5_hexdigest. now rewrite length_join_hex, length_digest.
Qed.

Lemma length_slice_to (n : nat) (s : string) :
  String.length (slice_to n s) = Nat.min n (String.length s).
Proof.
  revert s. induction n as [|n IH]; intros s; [reflexivity |].
  destruct s as [|c s]; [reflexivity |]. simpl. now rewrite IH.
Qed.

Lemma length_context_hash (self : AthenaChat) : String.length (context_hash self) = 8%nat.
Proof.
  unfold context_hash. now rewrite length_slice_to, length_md5_hexdigest.
Qed.

(** Two concatenations with first parts of one length agree part by
    part. *)
Lemma append_parts (a b x y : string) :
  String.length a = String.length b -> a +:+ x = b +:+ y -> a = b /\ x = y.
Proof.
  revert b. induction a as [|c a IH]; intros [|d b] Hlen H; try discriminate Hlen.
  - now split.
  - rewrite !append_cons in H. injection H as -> H. injection Hlen as Hlen.
    destruct (IH b Hlen H) as [-> ->]. now split.
Qed.

(** X6. A fingerprint has 41 characters: 8 for the document, an underscore
    and 32 for the message.  The two parts can be read back from it, so
    two fingerprints are equal exactly when both of their parts are. *)
Theorem fingerprint_is_unambiguous (self1 self2 : AthenaChat) (q1 q2 : string) :
  String.length (_get_cache_key self1 q1) = 41%nat /\
  (_get_cache_key self1 q1 = _get_cache_key self2 q2 <->
   context_hash self1 = context_hash self2 /\
   Hashlib.md5_hexdigest (strip (lower q1)) = Hashlib.md5_hexdigest (strip (lower q2))).
Proof.
  unfold _get_cache_key. split.
  - rewrite !length_append, length_context_hash, length_md5_hexdigest. reflexivity.
  - split.
    + intros H. apply append_parts in H; [| now rewrite !length_context_hash].
      destruct H as [Hc H]. split; [exact Hc |].
      apply (append_parts "_" "_") in H; [tauto | reflexivity].
    + intros [-> ->]. reflexivity.
Qed.

End KeyShape.

(** ** The exported transcript *)

Section Transcript.
Import Py Requests ChatEngine.

Lemma export_blocks_app (str_datetime : Z -> string) (i : nat) (history : list exchange)
    (ex : exchange) :
  export_blocks str_datetime i (history ++ [ex]) =
    export_blocks str_datetime i history
    +:+ export_block str_datetime (i + length history) ex.
Proof.
  revert i. induction history as [|e history IH]; intros i.
  - simpl. rewrite Nat.add_0_r. apply append_empty_r.
  - cbn [app export_blocks length]. rewrite IH, append_assoc.
    now rewrite Nat.add_succ_r.
Qed.

(** X7. After a turn that completes, the transcript is the transcript of
    before followed by one block, numbered after the blocks there were,
    with the message of the user and the recorded answer; after any
    other turn it is the transcript of before. *)
Theorem transcript_grows_by_one_block (str_datetime : Z -> string) (self : AthenaChat)
    (post : backend) (now : Z) (user_message filename : string) :
  (forall answer,
     ChatTurn.completes self post user_message answer ->
     export_history str_datetime (snd (chat_stream self post now user_message)) filename =
       (filename,
        snd (export_history str_datetime self filename)
        +:+ export_block str_datetime (S (length (get_history self)))
              (Exchange now user_message answer))) /\
  ((forall answer, ~ ChatTurn.completes self post user_message answer) ->
   export_history str_datetime (snd (chat_stream self post now user_message)) filename =
     export_history str_datetime self filename).
Proof.
  split.
  - intros answer Hdone.
    rewrite (chat_stream_of_completes self post now user_message answer Hdone).
    unfold export_history, get_history. cbn [snd record_turn chat_history].
    rewrite export_blocks_app, append_assoc. reflexivity.
  - intros Hnot.
    destruct (chat_stream_state self post now user_message) as [-> | (msg & Hdone & _)];
      [reflexivity | now apply Hnot in Hdone].
Qed.

Lemma transcript_grows_by_one_block_witness :
  ChatTurn.completes default (Scenario.always Scenario.paris) Scenario.question
    "Paris is the capital." /\
  snd (export_history str_of_Z
         (snd (chat_stream default (Scenario.always Scenario.paris) 7 Scenario.question))
         "chat_history.txt")
  = export_header
    +:+ "Exchange 1" +:+ nl
    +:+ "Time: 7" +:+ nl
    +:+ "User: What is the capital of France?" +:+ nl
    +:+ "Athena: Paris is the capital." +:+ nl
    +:+ "--------------------------------------------------" +:+ nl +:+ nl.
Proof.
  assert (ChatTurn.completes default (Scenario.always Scenario.paris) Scenario.question
            "Paris is the capital.") as Hdone.
  { exists Scenario.paris, Scenario.tokens, "Paris is the capital.".
    repeat split; try (vm_compute; reflexivity); try apply lookup_empty.
    vm_compute. discriminate. }
  split; [exact Hdone |].
  rewrite (proj1 (transcript_grows_by_one_block str_of_Z default
                    (Scenario.always Scenario.paris) 7 Scenario.question
                    "chat_history.txt") _ Hdone).
  vm_compute. reflexivity.
Defined.

End Transcript.

(** ** A token that is not text *)

Section NotText.
Import Py Requests ChatEngine.

Lemma join_values_from_app_raises (i : nat) (tokens rest : list value) (e : exn) :
  join_values_from i tokens = Raises e ->
  join_values_from i (tokens ++ rest) = Raises e /\ exn_cls e = TypeError.
Proof.
  revert i. induction tokens as [|v tokens IH]; intros i; [discriminate |].
  destruct v; cbn [app join_values_from];
    try (intros H; injection H as <-; now split).
  destruct (join_values_from (S i) tokens) as [t|e'] eqn:E; [discriminate |].
  intros H. injection H as ->. destruct (IH (S i) E) as [-> Hcls]. now split.
Qed.

(** X8. When the stream ends well but one of its tokens is not a string,
    [chat_stream] has yielded that token among the others, adds one
    message for the [TypeError] of the join and records nothing; [chat]
    then joins the same chunks and raises that [TypeError] to its
    caller. *)
Theorem chat_raises_on_token_that_is_not_text (self : AthenaChat) (post : backend) (now : Z)
    (user_message : string) (r : response) (tokens : list value) (e : exn) :
  _response_cache self !! _get_cache_key self user_message = None ->
  post (build_request self user_message) = Return r ->
  status_code r = 200 ->
  read_stream (iter_lines r) = (tokens, None) ->
  join_values tokens = Raises e ->
  chat_stream self post now user_message
    = (tokens ++ [VStr (cross_mark +:+ " Error: " +:+ exn_str e)], self) /\
  chat self post now user_message = (Raises e, self).
Proof.
  intros Hmiss Hpost Hstatus Hread Hjoin.
  pose proof (chat_stream_join_raises self post now user_message r tokens e
                Hmiss Hpost Hstatus Hread Hjoin) as Hstream.
  destruct (join_values_from_app_raises 0 tokens [VStr (chat_stream_except e)] e Hjoin)
    as [Happ Hcls].
  assert (chat_stream_except e = cross_mark +:+ " Error: " +:+ exn_str e) as Hmsg.
  { unfold chat_stream_except, is_ConnectionError, is_Timeout. now rewrite Hcls. }
  split; [now rewrite Hstream, Hmsg |].
  rewrite (chat_miss self post now user_message Hmiss), Hstream. cbn [fst snd].
  unfold join_values. now rewrite Happ.
Qed.

Lemma chat_raises_on_token_that_is_not_text_witness :
  chat default (Scenario.always Scenario.numeric) 0 Scenario.question
  = (Raises (Raise TypeError "sequence item 1: expected str instance, int found"),
     default).
Proof.
  apply (proj2 (chat_raises_on_token_that_is_not_text default
                  (Scenario.always Scenario.numeric) 0 Scenario.question
                  Scenario.numeric [VStr "Paris"; VInt 5] _
                  (lookup_empty _) eq_refl eq_refl eq_refl eq_refl)).
Defined.

End NotText.

(** ** More on the readers *)

Section ReaderFacts.
Import Py Requests StreamSpec.

Lemma qa_reader_fail_open_witness :
  Forall intact (iter_lines Scenario.garbled) /\
  QaEngine.read_stream (iter_lines Scenario.garbled) = ([VStr "Hi"; VStr " there"], None).
Proof.
  assert (Forall intact (iter_lines Scenario.garbled)) as H
    by (repeat constructor).
  split; [exact H |].
  rewrite (qa_reader_fail_open (iter_lines Scenario.garbled) H). reflexivity.
Defined.

Lemma chat_reader_on_plain_lines_witness :
  Forall plain (iter_lines Scenario.malformed) /\
  ChatEngine.read_stream (iter_lines Scenario.malformed)
    = ([VStr "Hi"; VStr " there"], None).
Proof.
  assert (Forall plain (iter_lines Scenario.malformed)) as H
    by (repeat constructor).
  split; [exact H |].
  rewrite (chat_reader_on_plain_lines (iter_lines Scenario.malformed) H). reflexivity.
Defined.

Lemma chat_reader_stops_at_other_lines_witness :
  ChatEngine.read_stream (iter_lines Scenario.with_null)
    = ([VStr "Hi"], Some (no_attribute_get VNone)).
Proof.
  apply (chat_reader_stops_at_other_lines
           [Scenario.record "Hi" false] [Scenario.record " there" true]
           (Data (Return VNone)) (no_attribute_get VNone)).
  - repeat constructor.
  - repeat constructor.
  - right. exists VNone. repeat split.
Defined.

(** X12. Neither reader ever yields a token that is empty, or false in any
    other way: every chunk it yields is true as Python sees it. *)
Theorem readers_yield_no_empty_token (lines : list line) :
  Forall (fun token => truthy token = true) (fst (ChatEngine.read_stream lines)) /\
  Forall (fun token => truthy token = true) (fst (QaEngine.read_stream lines)).
Proof.
  split.
  - induction lines as [|l lines IH]; [constructor |].
    destruct l as [|[data|e]|e]; cbn [ChatEngine.read_stream]; try exact IH;
      try constructor.
    + destruct data; try constructor.
      destruct (truthy (dict_get items "done" (VBool false)));
        [| destruct (ChatEngine.read_stream lines) as [more exc]];
        cbn [fst] in *;
        (destruct (truthy (dict_get items "response" (VStr ""))) eqn:T;
         [constructor; [exact T |] |]); try constructor; exact IH.
    + destruct (is_JSONDecodeError e); [exact IH | constructor].
  - induction lines as [|l lines IH]; [constructor |].
    destruct l as [|[data|e]|e]; cbn [QaEngine.read_stream]; try exact IH;
      try constructor.
    destruct data; try exact IH.
    destruct (truthy (dict_get items "done" (VBool false)));
      [| destruct (QaEngine.read_stream lines) as [more exc]];
      cbn [fst] in *;
      (destruct (truthy (dict_get items "response" (VStr ""))) eqn:T;
       [constructor; [exact T |] |]); try constructor; exact IH.
Qed.

(** X13. Both readers stop at the first record that carries the terminal
    marker: what follows it in the stream, were it a broken connection,
    changes neither what is yielded nor how the reading ends. *)
Theorem nothing_is_read_past_the_marker (before after : list line)
    (d : list (string * value)) :
  terminal d = true ->
  ChatEngine.read_stream (before ++ Data (Return (VDict d)) :: after)
    = ChatEngine.read_stream (before ++ [Data (Return (VDict d))]) /\
  QaEngine.read_stream (before ++ Data (Return (VDict d)) :: after)
    = QaEngine.read_stream (before ++ [Data (Return (VDict d))]).
Proof.
  unfold terminal. intros Hdone. split.
  - induction before as [|l before IH].
    + cbn [app ChatEngine.read_stream]. now rewrite Hdone.
    + destruct l as [|[data|e]|e]; cbn [app ChatEngine.read_stream];
        try exact IH; try reflexivity.
      * destruct data; try reflexivity. now rewrite IH.
      * now rewrite IH.
  - induction before as [|l before IH].
    + cbn [app QaEngine.read_stream]. now rewrite Hdone.
    + destruct l as [|[data|e]|e]; cbn [app QaEngine.read_stream];
        try exact IH; try reflexivity.
      destruct data; try exact IH. now rewrite IH.
Qed.

Lemma nothing_is_read_past_the_marker_witness :
  ChatEngine.read_stream
    [Scenario.record "Paris" false; Scenario.record "." true;
     Broken (Raise ReadTimeout "Read timed out.")]
  = ([VStr "Paris"; VStr "."], None).
Proof.
  exact (eq_trans
           (proj1 (nothing_is_read_past_the_marker
                     [Scenario.record "Paris" false]
                     [Broken (Raise ReadTimeout "Read timed out.")]
                     [("response", VStr "."); ("done", VBool true)] eq_refl))
           eq_refl).
Defined.

End ReaderFacts.

(** ** Telling failures apart *)

Section Messages.
Import Py Requests.

Lemma chat_messages_differ_witness :
  ChatEngine.chat_stream_except (Raise ConnectionError "Connection refused")
    <> ChatEngine.chat_stream_except (Raise ReadTimeout "Read timed out.") /\
  ChatEngine.chat_stream_except (Raise ConnectionError "Connection refused")
    <> cross_mark +:+ " Error: " +:+ str_of_Z 500 /\
  ChatEngine.chat_stream_except (Raise ReadTimeout "Read timed out.")
    <> cross_mark +:+ " Error: " +:+ str_of_Z 500.
Proof.
  exact (chat_messages_differ (Raise ConnectionError "Connection refused")
           (Raise ReadTimeout "Read timed out.") 500 eq_refl eq_refl eq_refl).
Defined.

Lemma qa_messages_differ_witness :
  QaEngine.answer_stream_except (Raise ConnectionError "Connection refused")
    <> QaEngine.answer_stream_except (Raise ReadTimeout "Read timed out.") /\
  QaEngine.answer_stream_except (Raise ConnectionError "Connection refused")
    <> cross_mark +:+ " Ollama API error " +:+ str_of_Z 500 +:+ ": " +:+ "overloaded" /\
  QaEngine.answer_stream_except (Raise ReadTimeout "Read timed out.")
    <> cross_mark +:+ " Ollama API error " +:+ str_of_Z 500 +:+ ": " +:+ "overloaded".
Proof.
  exact (qa_messages_differ (Raise ConnectionError "Connection refused")
           (Raise ReadTimeout "Read timed out.") 500 "overloaded" eq_refl eq_refl eq_refl).
Defined.

(** X16. An exception that is both a connection error and a timeout, as a
    timeout while connecting is, is reported as a connection failure by
    the chat path and as a timeout by the question-answering path: the
    two order their handlers differently. *)
Theorem timeout_while_connecting_is_filed_twice (e : exn) :
  is_ConnectionError e = true ->
  is_Timeout e = true ->
  ChatEngine.chat_stream_except e
    = cross_mark +:+ " Could not connect to Ollama. Make sure it's running: `ollama serve`" /\
  QaEngine.answer_stream_except e
    = cross_mark +:+ " Request timed out. The model might be processing a large context.".
Proof.
  intros Hc Ht. unfold ChatEngine.chat_stream_except, QaEngine.answer_stream_except.
  now rewrite Hc, Ht.
Qed.

Lemma timeout_while_connecting_is_filed_twice_witness :
  ChatEngine.chat_stream_except (Raise ConnectTimeout "Connection to localhost timed out")
    = cross_mark +:+ " Could not connect to Ollama. Make sure it's running: `ollama serve`" /\
  QaEngine.answer_stream_except (Raise ConnectTimeout "Connection to localhost timed out")
    = cross_mark +:+ " Request timed out. The model might be processing a large context.".
Proof.
  exact (timeout_while_connecting_is_filed_twice
           (Raise ConnectTimeout "Connection to localhost timed out") eq_refl eq_refl).
Defined.

End Messages.

(** ** Retrieval before generation *)

Section Retrieval.
Import Py Requests.

(** X17. A retriever without [invoke], whose call raises [AttributeError],
    is asked through [get_relevant_documents] instead, and the answer is
    the one a retriever with that method for [invoke] gives.  Any other
    exception of the retriever ends the answer with one message, and no
    request is sent. *)
Theorem retriever_falls_back_on_attribute_error (r : QaEngine.retriever) (model : string)
    (post : backend) (question : string) (e : exn) :
  QaEngine.invoke r question = Raises e ->
  (is_AttributeError e = true ->
   QaEngine.answer_stream r model post question =
     QaEngine.answer_stream
       (QaEngine.Retriever (QaEngine.get_relevant_documents r)
                           (QaEngine.get_relevant_documents r))
       model post question) /\
  (is_AttributeError e = false ->
   forall post',
     QaEngine.answer_stream r model post' question
       = [VStr (QaEngine.answer_stream_except e)]).
Proof.
  intros Hinvoke. split.
  - intros Hattr.
    unfold QaEngine.answer_stream, QaEngine.answer_stream_try, QaEngine.retrieve.
    rewrite Hinvoke, Hattr. cbn [QaEngine.invoke QaEngine.get_relevant_documents].
    destruct (QaEngine.get_relevant_documents r question) as [docs|e']; [reflexivity |].
    now destruct (is_AttributeError e').
  - intros Hother post'.
    unfold QaEngine.answer_stream, QaEngine.answer_stream_try, QaEngine.retrieve.
    now rewrite Hinvoke, Hother.
Qed.

Lemma retriever_falls_back_on_attribute_error_witness :
  QaEngine.answer Scenario.legacy_retriever "llama3.2:1b"
    (Scenario.expecting [Scenario.question; QaEngine.refusal_sentence] Scenario.paris)
    Scenario.question
  = Return "Paris is the capital.".
Proof.
  unfold QaEngine.answer.
  rewrite (proj1 (retriever_falls_back_on_attribute_error Scenario.legacy_retriever
                    "llama3.2:1b"
                    (Scenario.expecting [Scenario.question; QaEngine.refusal_sentence]
                       Scenario.paris)
                    Scenario.question _ eq_refl) eq_refl).
  vm_compute. reflexivity.
Defined.

(** X18. When retrieval finds nothing, the answer is the single warning,
    whatever the backend: no prompt is built and no request is sent. *)
Theorem no_context_no_request (r : QaEngine.retriever) (model : string) (post : backend)
    (question : string) :
  QaEngine.retrieve r question = Return [] ->
  QaEngine.answer_stream r model post question
    = [VStr (warning_sign +:+ " No relevant context found in the document.")] /\
  QaEngine.answer r model post question
    = Return (warning_sign +:+ " No relevant context found in the document.").
Proof.
  intros H. unfold QaEngine.answer, QaEngine.answer_stream, QaEngine.answer_stream_try.
  rewrite H. split; [reflexivity | vm_compute; reflexivity].
Qed.

Lemma no_context_no_request_witness :
  QaEngine.answer_stream (QaEngine.Retriever (fun _ => Return []) (fun _ => Return []))
    "llama3.2:1b" Scenario.unreachable Scenario.question
  = [VStr (warning_sign +:+ " No relevant context found in the document.")].
Proof.
  exact (proj1 (no_context_no_request
                  (QaEngine.Retriever (fun _ => Return []) (fun _ => Return []))
                  "llama3.2:1b" Scenario.unreachable Scenario.question eq_refl)).
Defined.



End Retrieval.

(** ** Search and index *)

Section SearchFacts.
Import Py SemanticSearch.



End SearchFacts.

Section IndexFacts.
Import Py Indexing.



(** When the splitter finds no chunk, both functions raise
    "No text chunks created from PDF" and the index is not built. *)
Example no_chunks_no_index :
  build_semantic_index (Scenario.splitting []) "" 500 100 = ([], Raises no_chunks) /\
  make_qa_chain (Scenario.splitting []) "" 2000 3 "llama3.2:1b" = ([], Raises no_chunks) /\
  fst (build_semantic_index (Scenario.splitting ["The capital"; "of France"])
         "The capital of France" 500 100) = [["The capital"; "of France"]].
Proof. repeat split. Qed.

End IndexFacts.
